(** * sqlalchemy_hana.dialect: a shallow embedding of the HANA dialect

    The dialect adapter of [sqlalchemy_hana/dialect.py] is embedded as pure
    functions: identifiers are texts whose case mappings are those of
    ASCII, Python's [None] is [None] of an option type, dictionaries are finite maps, the catalog queries of the
    reflection methods are functions from their bound parameters to the rows
    they return, and the warnings issued by [util.warn] are collected in a
    list next to the result. *)

From Stdlib Require Import ZArith Ascii String List Bool.
From stdpp Require Import base option list strings gmap fin_maps.

Set Default Proof Using "Type".

(** ** Python string methods used by the dialect *)

Module Py.

(** [upper] and [lower] of a text, as they act on ASCII: the 26 letters
    change case and every other character stays. On ASCII texts this is
    what Python's [unicode.upper] and [unicode.lower] compute; outside ASCII
    Python has further cased characters (the Kelvin sign U+212A lower-cases
    to [k]), for which only idempotence of either mapping is shared with
    this model. The results below that need more than idempotence are
    stated for ASCII names, see [isascii]. *)
Definition is_lower_letter (c : ascii) : bool :=
  let n := N_of_ascii c in (97 <=? n)%N && (n <=? 122)%N.

Definition is_upper_letter (c : ascii) : bool :=
  let n := N_of_ascii c in (65 <=? n)%N && (n <=? 90)%N.

Definition upper_char (c : ascii) : ascii :=
  if is_lower_letter c then ascii_of_N (N_of_ascii c - 32) else c.

Definition lower_char (c : ascii) : ascii :=
  if is_upper_letter c then ascii_of_N (N_of_ascii c + 32) else c.

Fixpoint upper (s : string) : string :=
  match s with
  | EmptyString => EmptyString
  | String c r => String (upper_char c) (upper r)
  end.

Fixpoint lower (s : string) : string :=
  match s with
  | EmptyString => EmptyString
  | String c r => String (lower_char c) (lower r)
  end.

(** Whether every character of a text is an ASCII character. *)
Definition is_ascii_char (c : ascii) : bool := (N_of_ascii c <? 128)%N.

Fixpoint isascii (s : string) : bool :=
  match s with
  | EmptyString => true
  | String c r => is_ascii_char c && isascii r
  end.

(** [s.startswith(prefix)] *)
Fixpoint startswith (s prefix : string) : bool :=
  match prefix, s with
  | EmptyString, _ => true
  | String p prefix', String c s' => Ascii.eqb c p && startswith s' prefix'
  | String _ _, EmptyString => false
  end.

(** [sub in s] for two strings *)
Fixpoint contains (sub s : string) : bool :=
  startswith s sub ||
  match s with
  | EmptyString => false
  | String _ s' => contains sub s'
  end.

(** [sep.join(items)] *)
Fixpoint join (sep : string) (items : list string) : string :=
  match items with
  | [] => EmptyString
  | [x] => x
  | x :: rest => x +:+ sep +:+ join sep rest
  end.

(** Truth value of a string-or-None, and [a or b] on such values. *)
Definition truthy (a : option string) : bool :=
  match a with
  | None => false
  | Some EmptyString => false
  | Some (String _ _) => true
  end.

Definition or_ (a b : option string) : option string :=
  if truthy a then a else b.

(** [unicode(x)], also what the [%s] conversion prints: [None] becomes the
    text [None]. *)
Definition unicode (x : option string) : string :=
  match x with
  | None => "None"
  | Some s => s
  end.

(** [d.setdefault(k, v)], keeping the dictionary. *)
Definition setdefault {V} (k : string) (v : V) (d : gmap string V) : gmap string V :=
  match d !! k with
  | Some _ => d
  | None => <[k := v]> d
  end.

End Py.

(** ** Schema objects handed to the DDL compiler *)

Module Column.
Record t := { name : string }.
End Column.

Module Constraint.
(** A constraint is iterated as its columns; [len(constraint)] is their
    number. *)
Record t := {
  name : option string;
  columns : list Column.t;
  deferrable : option bool;
  initially : option string
}.
End Constraint.

(** ** HANAIdentifierPreparer

    The class inherits [_requires_quotes] and [quote] from the toolkit's
    [compiler.IdentifierPreparer]; the record holds these inherited methods,
    and [format_constraint] is the one method the source overrides. *)

Record IdentifierPreparer := {
  _requires_quotes : string -> bool;
  quote : string -> string
}.

Definition format_constraint (self : IdentifierPreparer) (constraint : Constraint.t)
  : option string :=
  None.

(** ** HANADDLCompiler

    [define_constraint_deferrability] is inherited from the toolkit's
    [compiler.DDLCompiler]. *)

Record DDLCompiler := {
  preparer : IdentifierPreparer;
  define_constraint_deferrability : Constraint.t -> string
}.

Definition visit_unique_constraint (self : DDLCompiler) (constraint : Constraint.t) : string :=
  if (length (Constraint.columns constraint) =? 0)%nat then EmptyString
  else
    let text := EmptyString in
    let text :=
      match Constraint.name constraint with
      | Some _ =>
          match format_constraint (preparer self) constraint with
          | Some formatted_name => text +:+ "CONSTRAINT " +:+ formatted_name +:+ " "
          | None => text
          end
      | None => text
      end in
    let text :=
      text +:+ "UNIQUE (" +:+
      Py.join ", " (map (fun c => quote (preparer self) (Column.name c))
                        (Constraint.columns constraint)) +:+ ")" in
    let text := text +:+ define_constraint_deferrability self constraint in
    text.

(** ** Connection URLs

    [url.translate_connect_args] is a method of the toolkit's URL class
    ([sqlalchemy.engine.url.URL]), called by [create_connect_args] with the
    keyword [username="user"]: each of the five attributes that is set to a
    true value is copied under its own name, or under the name the keywords
    give for it. *)

Inductive value :=
| Str (s : string)
| Int (z : Z).

Definition value_truthy (v : value) : bool :=
  match v with
  | Str EmptyString => false
  | Str (String _ _) => true
  | Int z => negb (z =? 0)%Z
  end.

Module URL.

Record t := {
  host : option string;
  database : option string;
  username : option string;
  password : option string;
  port : option Z
}.

Definition attribute_names : list string :=
  ["host"; "database"; "username"; "password"; "port"].

Definition getattr (self : t) (sname : string) : option value :=
  if String.eqb sname "host" then Str <$> host self
  else if String.eqb sname "database" then Str <$> database self
  else if String.eqb sname "username" then Str <$> username self
  else if String.eqb sname "password" then Str <$> password self
  else if String.eqb sname "port" then Int <$> port self
  else None.

Definition translate_connect_args (self : t) (kw : gmap string string)
  : gmap string value :=
  foldl (fun translated sname =>
           let name := default sname (kw !! sname) in
           match getattr self sname with
           | Some v => if value_truthy v then <[name := v]> translated else translated
           | None => translated
           end)
        ∅ attribute_names.

End URL.

(** ** Reflected catalog records *)

(** Column types: the objects the two type modules export, and the
    instances [get_columns] builds from them. *)
Inductive sqltype :=
| Exported (name : string)
| DECIMAL_class
| VARCHAR_class
| NULLTYPE
| DECIMAL (precision scale : option Z)
| VARCHAR (length : option Z).

Global Instance sqltype_eq_dec : EqDecision sqltype.
Proof. solve_decision. Defined.

Module ColumnInfo.
Record t := {
  name : option string;
  default : option string;
  nullable : bool;
  type_ : sqltype
}.
End ColumnInfo.

Module ForeignKey.
Record t := {
  name : option string;
  constrained_columns : list (option string);
  referred_schema : option string;
  referred_table : option string;
  referred_columns : list (option string)
}.
End ForeignKey.

Module Index.
Record t := {
  name : option string;
  unique : bool;
  column_names : list (option string)
}.
End Index.

Module PrimaryKey.
Record t := {
  name : option string;
  constrained_columns : list (option string)
}.
End PrimaryKey.

(** ** The connection

    Each field is one of the parameterized catalog reads of the reflection
    methods: given the values bound to [:schema] and [:table] it yields the
    selected rows in the order of the query's ORDER BY. *)

Definition table_columns_row : Type :=
  string * string * option string * option string * option Z * option Z.
Definition referential_constraints_row : Type :=
  string * string * string * string.
Definition index_columns_row : Type :=
  string * string * option string.
Definition constraints_row : Type :=
  string * string.

Record Connection := {
  TABLE_COLUMNS : string -> string -> list table_columns_row;
  REFERENTIAL_CONSTRAINTS : string -> string -> list referential_constraints_row;
  INDEX_COLUMNS : string -> string -> list index_columns_row;
  CONSTRAINTS : string -> string -> list constraints_row
}.

(** ** HANADialect *)

Record HANADialect := {
  identifier_preparer : IdentifierPreparer;
  default_schema_name : option string
}.

Definition create_connect_args (self : HANADialect) (url : URL.t)
  : unit * gmap string value :=
  let kwargs := URL.translate_connect_args url {[ "username" := "user" ]} in
  let kwargs := Py.setdefault "port" (Int 30015) kwargs in
  (tt, kwargs).

Definition normalize_name (self : HANADialect) (name : option string) : option string :=
  match name with
  | None => None
  | Some name =>
      if String.eqb (Py.upper name) name &&
         negb (_requires_quotes (identifier_preparer self) (Py.lower name))
      then Some (Py.lower name)
      else Some name
  end.

Definition denormalize_name (self : HANADialect) (name : option string) : option string :=
  match name with
  | None => None
  | Some name =>
      if String.eqb (Py.lower name) name &&
         negb (_requires_quotes (identifier_preparer self) (Py.lower name))
      then Some (Py.upper name)
      else Some name
  end.

Section Reflection.

(** The two type registries: the attributes of the toolkit's [types] module
    and of this package's [hana_types] module, by name. [hasattr(m, n)] is
    [is_Some (m !! n)] and [getattr(m, n)] the value found. *)
Variable types : gmap string sqltype.
Variable hana_types : gmap string sqltype.

(** One turn of the loop of [get_columns]: the column descriptor appended
    for [row], and the warnings issued while building it. *)
Definition get_columns_row (self : HANADialect) (row : table_columns_row)
  : ColumnInfo.t * list string :=
  let '(row0, row1, row2, row3, row4, row5) := row in
  let name := normalize_name self (Some row0) in
  let default := row2 in
  let nullable := bool_decide (row3 = Some "TRUE") in
  let '(type_, warnings) :=
    match types !! row1 with
    | Some ty => (ty, [])
    | None =>
        match hana_types !! row1 with
        | Some ty => (ty, [])
        | None =>
            (NULLTYPE,
             ["Did not recognize type '" +:+ row1 +:+ "' of column '"
                +:+ Py.unicode name +:+ "'"])
        end
    end in
  let type_ :=
    if bool_decide (type_ = DECIMAL_class) then DECIMAL row4 row5
    else if bool_decide (type_ = VARCHAR_class) then VARCHAR row4
    else type_ in
  ({| ColumnInfo.name := name;
      ColumnInfo.default := default;
      ColumnInfo.nullable := nullable;
      ColumnInfo.type_ := type_ |},
   warnings).

(** [get_columns] returns the list [columns]; the second component is the
    sequence of warnings issued on the way. *)
Definition get_columns (self : HANADialect) (connection : Connection)
    (table_name : string) (schema : option string)
  : list ColumnInfo.t * list string :=
  let schema := Py.or_ schema (default_schema_name self) in
  let result :=
    TABLE_COLUMNS connection
      (Py.unicode (denormalize_name self schema))
      (Py.unicode (denormalize_name self (Some table_name))) in
  foldl (fun '(columns, warned) row =>
           let '(column, warnings) := get_columns_row self row in
           (columns ++ [column], warned ++ warnings))
        ([], []) result.

End Reflection.

Definition get_foreign_keys_row (self : HANADialect) (schema : option string)
    (row : referential_constraints_row) : ForeignKey.t :=
  let '(row0, row1, row2, row3) := row in
  let foreign_key :=
    {| ForeignKey.name := None;
       ForeignKey.constrained_columns := [normalize_name self (Some row0)];
       ForeignKey.referred_schema := None;
       ForeignKey.referred_table := normalize_name self (Some row2);
       ForeignKey.referred_columns := [normalize_name self (Some row3)] |} in
  if bool_decide (schema <> None) || bool_decide (Some row1 <> default_schema_name self)
  then {| ForeignKey.name := ForeignKey.name foreign_key;
          ForeignKey.constrained_columns := ForeignKey.constrained_columns foreign_key;
          ForeignKey.referred_schema := Some row1;
          ForeignKey.referred_table := ForeignKey.referred_table foreign_key;
          ForeignKey.referred_columns := ForeignKey.referred_columns foreign_key |}
  else foreign_key.

Definition get_foreign_keys (self : HANADialect) (connection : Connection)
    (table_name : string) (schema : option string) : list ForeignKey.t :=
  let lookup_schema := Py.or_ schema (default_schema_name self) in
  let result :=
    REFERENTIAL_CONSTRAINTS connection
      (Py.unicode (denormalize_name self lookup_schema))
      (Py.unicode (denormalize_name self (Some table_name))) in
  foldl (fun foreign_keys row => foreign_keys ++ [get_foreign_keys_row self schema row])
        [] result.

(** The value of [unique] computed from a row's constraint marker. *)
Definition unique_of_marker (constraint : option string) : bool :=
  match constraint with
  | Some c => Py.contains "UNIQUE" (Py.upper c)
  | None => false
  end.

(** One turn of the loop of [get_indexes] on the dictionary [indexes]. *)
Definition get_indexes_row (self : HANADialect)
    (indexes : gmap (option string) Index.t) (row : index_columns_row)
  : gmap (option string) Index.t :=
  let '(name, column, constraint) := row in
  if Py.startswith name "_SYS" then indexes
  else
    let name := normalize_name self (Some name) in
    let column := normalize_name self (Some column) in
    match indexes !! name with
    | None =>
        <[name := {| Index.name := name;
                     Index.unique := unique_of_marker constraint;
                     Index.column_names := [column] |}]> indexes
    | Some entry =>
        <[name := {| Index.name := Index.name entry;
                     Index.unique := Index.unique entry;
                     Index.column_names := Index.column_names entry ++ [column] |}]>
          indexes
    end.

Definition get_indexes (self : HANADialect) (connection : Connection)
    (table_name : string) (schema : option string) : list Index.t :=
  let schema := Py.or_ schema (default_schema_name self) in
  let result :=
    INDEX_COLUMNS connection
      (Py.unicode (denormalize_name self schema))
      (Py.unicode (denormalize_name self (Some table_name))) in
  let indexes := foldl (get_indexes_row self) ∅ result in
  (map_to_list indexes).*2.

Definition get_pk_constraint (self : HANADialect) (connection : Connection)
    (table_name : string) (schema : option string) : PrimaryKey.t :=
  let schema := Py.or_ schema (default_schema_name self) in
  let result :=
    CONSTRAINTS connection
      (Py.unicode (denormalize_name self schema))
      (Py.unicode (denormalize_name self (Some table_name))) in
  let '(constraint_name, constrained_columns) :=
    foldl (fun '(constraint_name, constrained_columns) '(row0, row1) =>
             (Some row0, constrained_columns ++ [normalize_name self (Some row1)]))
          (None, []) result in
  {| PrimaryKey.name := normalize_name self constraint_name;
     PrimaryKey.constrained_columns := constrained_columns |}.

(** ** Identifiers that require quoting, in the words of the description

    The name-casing convention speaks of an identifier that requires
    quoting when it is of mixed case or collides with a reserved word; an
    all-upper-case name that is no reserved word does not require quoting.
    In terms of the dialect: the name is neither all-upper-case nor
    all-lower-case, or its lower-cased form, which is the form both
    functions hand to the preparer, needs quotes there. *)

Definition mixed_case (x : string) : Prop :=
  Py.upper x <> x /\ Py.lower x <> x.

Definition requires_quoting (self : HANADialect) (x : string) : Prop :=
  mixed_case x \/ _requires_quotes (identifier_preparer self) (Py.lower x) = true.

(** ** The toolkit's inherited methods

    The methods the classes above inherit from the toolkit are fields of the
    records [IdentifierPreparer] and [DDLCompiler]; the results below hold for
    every choice of them. This module writes out the toolkit's own
    definitions ([sqlalchemy.sql.compiler]), so that the dialect can be run
    on concrete identifiers. *)

Module Toolkit.

Definition RESERVED_WORDS : list string :=
  ["all"; "analyse"; "analyze"; "and"; "any"; "array"; "as"; "asc";
   "asymmetric"; "authorization"; "between"; "binary"; "both"; "case";
   "cast"; "check"; "collate"; "column"; "constraint"; "create"; "cross";
   "current_date"; "current_role"; "current_time"; "current_timestamp";
   "current_user"; "default"; "deferrable"; "desc"; "distinct"; "do";
   "else"; "end"; "except"; "false"; "for"; "foreign"; "freeze"; "from";
   "full"; "grant"; "group"; "having"; "ilike"; "in"; "initially"; "inner";
   "intersect"; "into"; "is"; "isnull"; "join"; "leading"; "left"; "like";
   "limit"; "localtime"; "localtimestamp"; "natural"; "new"; "not";
   "notnull"; "null"; "off"; "offset"; "old"; "on"; "only"; "or"; "order";
   "outer"; "overlaps"; "placing"; "primary"; "references"; "right";
   "select"; "session_user"; "set"; "similar"; "some"; "symmetric";
   "table"; "then"; "to"; "trailing"; "true"; "union"; "unique"; "user";
   "using"; "verbose"; "when"; "where"].

Definition is_digit (c : ascii) : bool :=
  let n := N_of_ascii c in (48 <=? n)%N && (n <=? 57)%N.

(** ILLEGAL_INITIAL_CHARACTERS: the ten digits and the dollar sign. *)
Definition illegal_initial_character (c : ascii) : bool :=
  is_digit c || Ascii.eqb c "$".

(** One character of the class [[A-Z0-9_$]], letters in either case. *)
Definition legal_character (c : ascii) : bool :=
  Py.is_upper_letter c || Py.is_lower_letter c || is_digit c
  || Ascii.eqb c "_" || Ascii.eqb c "$".

(** LEGAL_CHARACTERS.match(value): one or more legal characters up to the
    end of the string, or up to a final line feed. *)
Fixpoint legal_characters_match (value : string) : bool :=
  match value with
  | EmptyString => false
  | String c rest =>
      legal_character c &&
      match rest with
      | EmptyString => true
      | String "010" EmptyString => true
      | _ => legal_characters_match rest
      end
  end.

(** [IdentifierPreparer._requires_quotes]. The toolkit reads [value[0]],
    which fails on the empty string before any answer is given; the empty
    string is no identifier and is given the answer [true] here. *)
Definition _requires_quotes (value : string) : bool :=
  let lc_value := Py.lower value in
  bool_decide (lc_value ∈ RESERVED_WORDS)
  || match value with
     | EmptyString => true
     | String c _ => illegal_initial_character c
     end
  || negb (legal_characters_match value)
  || negb (String.eqb lc_value value).

Definition double_quote : ascii := ascii_of_nat 34.

(** Doubling of the quote character inside a quoted identifier. *)
Fixpoint _escape_identifier (value : string) : string :=
  match value with
  | EmptyString => EmptyString
  | String c rest =>
      if Ascii.eqb c double_quote
      then String double_quote (String double_quote (_escape_identifier rest))
      else String c (_escape_identifier rest)
  end.

Definition quote_identifier (value : string) : string :=
  String double_quote (_escape_identifier value +:+ String double_quote EmptyString).

Definition quote (ident : string) : string :=
  if _requires_quotes ident then quote_identifier ident else ident.

Definition define_constraint_deferrability (constraint : Constraint.t) : string :=
  let text := EmptyString in
  let text :=
    match Constraint.deferrable constraint with
    | Some true => text +:+ " DEFERRABLE"
    | Some false => text +:+ " NOT DEFERRABLE"
    | None => text
    end in
  let text :=
    match Constraint.initially constraint with
    | Some i => text +:+ " INITIALLY " +:+ i
    | None => text
    end in
  text.

Definition identifier_preparer : IdentifierPreparer :=
  Build_IdentifierPreparer _requires_quotes quote.

Definition ddl_compiler : DDLCompiler :=
  Build_DDLCompiler identifier_preparer define_constraint_deferrability.

(** A dialect connected as the user [me]. *)
Definition dialect : HANADialect :=
  Build_HANADialect identifier_preparer (Some "ME").

End Toolkit.

(** ** The grouping of [get_indexes], in the words of its description

    Rows whose index name carries the reserved prefix are dropped; the rows
    that remain are grouped, in query order, under their normalized index
    name; the first row of a group gives the uniqueness flag. *)

Definition reserved_prefix (row : index_columns_row) : bool :=
  Py.startswith row.1.1 "_SYS".

Definition described_index_rows (self : HANADialect) (name : option string)
    (rows : list index_columns_row) : list index_columns_row :=
  filter (fun row => normalize_name self (Some row.1.1) = name)
         (filter (fun row => reserved_prefix row = false) rows).

Definition described_index_entry (self : HANADialect) (name : option string)
    (rows : list index_columns_row) : option Index.t :=
  match described_index_rows self name rows with
  | [] => None
  | first :: others =>
      Some {| Index.name := name;
              Index.unique := unique_of_marker first.2;
              Index.column_names :=
                map (fun row => normalize_name self (Some row.1.2)) (first :: others) |}
  end.

(** [sub] occurs in [s] when case is ignored: some segment of [s] equals
    [sub] once both are upper-cased. *)
Definition occurs_ignoring_case (sub s : string) : Prop :=
  exists pre mid post, s = pre +:+ mid +:+ post /\ Py.upper mid = Py.upper sub.

(** An index entry with further columns appended to its column list. *)
Definition append_columns (entry : Index.t) (columns : list (option string)) : Index.t :=
  {| Index.name := Index.name entry;
     Index.unique := Index.unique entry;
     Index.column_names := Index.column_names entry ++ columns |}.

(** ** A sample catalog

    The catalog of a small table, used to run the reflection methods: three
    columns, one of them of a type no registry knows; a foreign key into
    another schema; an index over two columns next to a system index; no
    primary key. *)

Module Sample.

Definition types : gmap string sqltype :=
  {[ "INTEGER" := Exported "INTEGER";
     "VARCHAR" := VARCHAR_class;
     "DECIMAL" := DECIMAL_class;
     "NULLTYPE" := NULLTYPE ]}.

Definition hana_types : gmap string sqltype :=
  {[ "TINYINT" := Exported "TINYINT"; "DOUBLE" := Exported "DOUBLE" ]}.

Definition connection : Connection :=
  {| TABLE_COLUMNS := fun _ _ =>
       [("ID", "INTEGER", None, Some "FALSE", Some 10%Z, Some 0%Z);
        ("SHAPE", "ST_GEOMETRY", None, Some "TRUE", None, None);
        ("NOTE", "VARCHAR", Some "-", Some "true", Some 20%Z, None)];
     REFERENTIAL_CONSTRAINTS := fun _ _ =>
       [("OWNER_ID", "OTHER", "OWNERS", "ID")];
     INDEX_COLUMNS := fun _ _ =>
       [("IDX", "ID", None);
        ("_SYS_TREE_7", "ID", Some "PRIMARY KEY");
        ("IDX", "NOTE", Some "UNIQUE")];
     CONSTRAINTS := fun _ _ => [] |}.

Definition url : URL.t :=
  {| URL.host := Some "db.example";
     URL.database := None;
     URL.username := Some "me";
     URL.password := Some "secret";
     URL.port := None |}.

Definition url_with_port (p : Z) : URL.t :=
  {| URL.host := Some "db.example";
     URL.database := None;
     URL.username := Some "me";
     URL.password := Some "secret";
     URL.port := Some p |}.

End Sample.

(** ** The statement compiler, the type compiler and the execution context

    [format_sequence] (of the identifier preparer), [visit_DECIMAL] (of the
    generic type compiler) and [_execute_scalar] (of the default execution
    context) are inherited from the toolkit; sequences, type objects and
    scalar results are whatever the toolkit makes them. *)

Section Compilers.

Variable Sequence : Type.
Variable TypeEngine : Type.
Variable Scalar : Type.
Variable format_sequence : Sequence -> string.
Variable visit_DECIMAL : TypeEngine -> string.
Variable _execute_scalar : string -> TypeEngine -> Scalar.

Definition visit_sequence (seq : Sequence) : string :=
  format_sequence seq +:+ ".NEXTVAL".

Definition default_from : string := " FROM DUMMY".

Definition visit_TINYINT (type_ : TypeEngine) : string := "TINYINT".

Definition visit_boolean (type_ : TypeEngine) : string := visit_TINYINT type_.

Definition visit_NUMERIC (type_ : TypeEngine) : string := visit_DECIMAL type_.

Definition visit_DOUBLE (type_ : TypeEngine) : string := "DOUBLE".

Definition fire_sequence (seq : Sequence) (type_ : TypeEngine) : Scalar :=
  let seq := format_sequence seq in
  _execute_scalar ("SELECT " +:+ seq +:+ ".NEXTVAL FROM DUMMY") type_.

End Compilers.

Definition visit_check_constraint (self : DDLCompiler) (constraint : Constraint.t)
  : option string :=
  None.

(** ** The dialect's other methods *)

(** The outcome of a call that may raise. *)
Inductive outcome (A : Type) :=
| Returns (a : A)
| Raises (exception : string).
Arguments Returns {A} a.
Arguments Raises {A} exception.

(** [connection.engine.url.username.upper()]: a URL without a user name has
    [None] there, which has no method [upper]. *)
Definition _get_default_schema_name (self : HANADialect) (url : URL.t) : outcome string :=
  match URL.username url with
  | Some username => Returns (Py.upper username)
  | None => Raises "AttributeError"
  end.

Definition on_connect (self : HANADialect) : option unit := None.

(** The catalog views read by the existence checks and the name listings,
    as the rows they hold: SCHEMAS by SCHEMA_NAME, TABLES by (SCHEMA_NAME,
    TABLE_NAME), SEQUENCES by (SCHEMA_NAME, SEQUENCE_NAME). A WHERE clause
    of equalities selects the rows that satisfy them, in the view's order. *)
Record Catalog := {
  SCHEMAS : list string;
  TABLES : list (string * string);
  SEQUENCES : list (string * string)
}.

(** [bool(result.first())]: whether the result has a row. *)
Definition has_first {A} (result : list A) : bool :=
  match head result with
  | Some _ => true
  | None => false
  end.

Definition has_table (self : HANADialect) (connection : Catalog)
    (table_name : string) (schema : option string) : bool :=
  let schema := Py.or_ schema (default_schema_name self) in
  let result :=
    map (fun _ => 1%Z)
        (filter (fun row =>
                   row.1 = Py.unicode (denormalize_name self schema) /\
                   row.2 = Py.unicode (denormalize_name self (Some table_name)))
                (TABLES connection)) in
  has_first result.

Definition has_sequence (self : HANADialect) (connection : Catalog)
    (sequence_name : string) (schema : option string) : bool :=
  let schema := Py.or_ schema (default_schema_name self) in
  let result :=
    map (fun _ => 1%Z)
        (filter (fun row =>
                   row.1 = Py.unicode (denormalize_name self schema) /\
                   row.2 = Py.unicode (denormalize_name self (Some sequence_name)))
                (SEQUENCES connection)) in
  has_first result.

Definition get_schema_names (self : HANADialect) (connection : Catalog)
  : list (option string) :=
  let result := SCHEMAS connection in
  map (fun name => normalize_name self (Some name)) result.

Definition get_table_names (self : HANADialect) (connection : Catalog)
    (schema : option string) : list (option string) :=
  let schema := Py.or_ schema (default_schema_name self) in
  let result :=
    map (fun row => row.2)
        (filter (fun row => row.1 = Py.unicode (denormalize_name self schema))
                (TABLES connection)) in
  let tables := map (fun row0 => normalize_name self (Some row0)) result in
  tables.

(** A sample of these views: the user's schema holds an upper-case table,
    a table created under a quoted lower-case name, and a sequence. *)
Definition sample_catalog : Catalog :=
  {| SCHEMAS := ["ME"; "OTHER"; "SYS"];
     TABLES := [("OTHER", "OWNERS"); ("ME", "ORDERS"); ("ME", "notes")];
     SEQUENCES := [("ME", "ORDER_IDS")] |}.

(** The number of columns held by a list of index entries. *)
Definition total_columns (entries : list Index.t) : nat :=
  sum_list_with (fun entry => length (Index.column_names entry)) entries.

(** * Properties *)

(** ** Case conversion *)

Section Case.

Import Py.

Lemma lower_char_idem c : lower_char (lower_char c) = lower_char c.
Proof. destruct c as [[] [] [] [] [] [] [] []]; reflexivity. Qed.

Lemma upper_char_idem c : upper_char (upper_char c) = upper_char c.
Proof. destruct c as [[] [] [] [] [] [] [] []]; reflexivity. Qed.

Lemma upper_lower_char c : upper_char (lower_char c) = upper_char c.
Proof. destruct c as [[] [] [] [] [] [] [] []]; reflexivity. Qed.

Lemma lower_upper_char c : lower_char (upper_char c) = lower_char c.
Proof. destruct c as [[] [] [] [] [] [] [] []]; reflexivity. Qed.

Lemma lower_char_not_upper c : is_upper_letter (lower_char c) = false.
Proof. destruct c as [[] [] [] [] [] [] [] []]; reflexivity. Qed.

Lemma lower_idem s : lower (lower s) = lower s.
Proof. induction s as [|c s IH]; simpl; [done|]. by rewrite lower_char_idem, IH. Qed.

Lemma upper_idem s : upper (upper s) = upper s.
Proof. induction s as [|c s IH]; simpl; [done|]. by rewrite upper_char_idem, IH. Qed.

Lemma upper_lower s : upper (lower s) = upper s.
Proof. induction s as [|c s IH]; simpl; [done|]. by rewrite upper_lower_char, IH. Qed.

Lemma lower_upper s : lower (upper s) = lower s.
Proof. induction s as [|c s IH]; simpl; [done|]. by rewrite lower_upper_char, IH. Qed.

Lemma upper_app s t : upper (s +:+ t) = upper s +:+ upper t.
Proof. induction s as [|c s IH]; simpl; [done|]. by rewrite IH. Qed.

(** A split of [upper s] comes from a split of [s]. *)
Lemma upper_split s a b :
  upper s = a +:+ b -> exists s1 s2, s = s1 +:+ s2 /\ upper s1 = a /\ upper s2 = b.
Proof.
  revert s. induction a as [|c a IH]; intros s H; simpl in H.
  - by exists EmptyString, s.
  - destruct s as [|d s]; simpl in H; [done|].
    injection H as Hc Hs. destruct (IH _ Hs) as (s1 & s2 & -> & H1 & H2).
    exists (String d s1), s2. simpl. by rewrite Hc, H1.
Qed.

(** [startswith] and [contains] against their meaning on texts. *)
Lemma startswith_spec s prefix :
  startswith s prefix = true <-> exists post, s = prefix +:+ post.
Proof.
  revert s. induction prefix as [|p prefix IH]; intros s; simpl.
  - split; [intros _; by exists s | intros _; by destruct s].
  - destruct s as [|c s].
    + split; [done | intros [post H]; discriminate H].
    + change (Ascii.eqb c p && startswith s prefix = true
              <-> exists post, String c s = String p (prefix +:+ post)).
      destruct (Ascii.eqb_spec c p) as [->|Hc]; simpl.
      * rewrite IH. split.
        -- intros [post ->]. by exists post.
        -- intros [post H]. injection H as ->. by exists post.
      * split; [done|]. intros [post H]. by injection H as -> _.
Qed.

Lemma contains_spec sub s :
  contains sub s = true <-> exists pre post, s = pre +:+ sub +:+ post.
Proof.
  induction s as [|c s IH]; cbn [contains].
  - rewrite orb_false_r, startswith_spec. split.
    + intros [post H]. by exists EmptyString, post.
    + intros (pre & post & H). destruct pre as [|? ?]; [by exists post | discriminate H].
  - rewrite orb_true_iff, startswith_spec, IH. split.
    + intros [[post H] | (pre & post & H)].
      * by exists EmptyString, post.
      * exists (String c pre), post. simpl. by rewrite H.
    + intros (pre & post & H). destruct pre as [|d pre]; simpl in H.
      * left. by exists post.
      * right. injection H as -> ->. by exists pre, post.
Qed.

End Case.

(** Case conversion stays within ASCII: on an ASCII name, every text the
    two functions compute on the way is ASCII again, so that the model's
    case mappings are Python's at each step. *)
Lemma is_ascii_upper_char c : Py.is_ascii_char (Py.upper_char c) = Py.is_ascii_char c.
Proof. destruct c as [[] [] [] [] [] [] [] []]; reflexivity. Qed.

Lemma is_ascii_lower_char c : Py.is_ascii_char (Py.lower_char c) = Py.is_ascii_char c.
Proof. destruct c as [[] [] [] [] [] [] [] []]; reflexivity. Qed.

Lemma isascii_upper s : Py.isascii (Py.upper s) = Py.isascii s.
Proof.
  induction s as [|c s IH]; [done|].
  cbn [Py.upper Py.isascii]. by rewrite is_ascii_upper_char, IH.
Qed.

Lemma isascii_lower s : Py.isascii (Py.lower s) = Py.isascii s.
Proof.
  induction s as [|c s IH]; [done|].
  cbn [Py.lower Py.isascii]. by rewrite is_ascii_lower_char, IH.
Qed.

Lemma normalize_name_isascii self x y :
  normalize_name self (Some x) = Some y -> Py.isascii y = Py.isascii x.
Proof.
  simpl. destruct (_ && _); intros [= <-]; [apply isascii_lower | done].
Qed.

Lemma denormalize_name_isascii self x y :
  denormalize_name self (Some x) = Some y -> Py.isascii y = Py.isascii x.
Proof.
  simpl. destruct (_ && _); intros [= <-]; [apply isascii_upper | done].
Qed.

(** The characters the toolkit's test lets pass unquoted are ASCII. *)
Lemma legal_character_is_ascii c :
  Toolkit.legal_character c = true -> Py.is_ascii_char c = true.
Proof. destruct c as [[] [] [] [] [] [] [] []]; (reflexivity || discriminate). Qed.

Lemma legal_characters_match_step c rest :
  Toolkit.legal_characters_match (String c rest) = true ->
  Toolkit.legal_character c = true /\
  (rest = EmptyString \/ rest = String "010" EmptyString \/
   Toolkit.legal_characters_match rest = true).
Proof.
  intros H. cbn [Toolkit.legal_characters_match] in H.
  apply andb_true_iff in H as [Hc Hrest]. split; [done|].
  destruct rest as [|d rest]; [by left|]. right.
  destruct d as [[] [] [] [] [] [] [] []]; try (right; exact Hrest).
  destruct rest as [|e rest]; [by left | right; exact Hrest].
Qed.

Lemma legal_characters_match_isascii x :
  Toolkit.legal_characters_match x = true -> Py.isascii x = true.
Proof.
  induction x as [|c rest IH]; [done|]. intros H.
  apply legal_characters_match_step in H as [Hc Hrest].
  cbn [Py.isascii]. rewrite (legal_character_is_ascii c Hc).
  destruct Hrest as [-> | [-> | Hrest]]; [done | done | by apply IH].
Qed.

(** A name the toolkit's test leaves unquoted is an ASCII name. *)
Lemma toolkit_unquoted_is_ascii x :
  Toolkit._requires_quotes x = false -> Py.isascii x = true.
Proof.
  unfold Toolkit._requires_quotes. intros H.
  apply orb_false_elim in H as [H _]. apply orb_false_elim in H as [_ H].
  apply negb_false_iff in H. by apply legal_characters_match_isascii.
Qed.

(** ** Name normalization *)

Section Names.

Variable self : HANADialect.

Local Abbreviation requires_quotes := (_requires_quotes (identifier_preparer self)).

(** The two functions by cases, as equations. *)
Lemma normalize_name_lowers x :
  Py.upper x = x -> requires_quotes (Py.lower x) = false ->
  normalize_name self (Some x) = Some (Py.lower x).
Proof. intros Hu Hq. simpl. by rewrite Hu, String.eqb_refl, Hq. Qed.

Lemma normalize_name_keeps x :
  Py.upper x <> x \/ requires_quotes (Py.lower x) = true ->
  normalize_name self (Some x) = Some x.
Proof.
  intros [Hu | Hq]; simpl.
  - apply String.eqb_neq in Hu. by rewrite Hu.
  - rewrite Hq. by rewrite andb_false_r.
Qed.

Lemma denormalize_name_uppers x :
  Py.lower x = x -> requires_quotes (Py.lower x) = false ->
  denormalize_name self (Some x) = Some (Py.upper x).
Proof. intros Hl Hq. simpl. by rewrite Hq, Hl, String.eqb_refl. Qed.

Lemma denormalize_name_keeps x :
  Py.lower x <> x \/ requires_quotes (Py.lower x) = true ->
  denormalize_name self (Some x) = Some x.
Proof.
  intros [Hl | Hq]; simpl.
  - apply String.eqb_neq in Hl. by rewrite Hl.
  - rewrite Hq. by rewrite andb_false_r.
Qed.

(** The result of [normalize_name] is the name or its lower-cased form. *)
Lemma normalize_name_cases x :
  normalize_name self (Some x) = Some x \/
  normalize_name self (Some x) = Some (Py.lower x).
Proof. simpl. destruct (_ && _); auto. Qed.

(** C1, amended: for every all-lower-case ASCII identifier [x] that does
    not require quoting, normalizing the denormalized [x] gives [x] back;
    for every all-upper-case ASCII identifier [y] whose lower-cased form
    does not require quoting, denormalizing the normalized [y] gives [y]
    back, and normalize(denormalize(normalize(y))) equals normalize(y).
    The names are ASCII because the round trips go through both case
    mappings, which undo one another on ASCII letters only. *)
Theorem normalize_denormalize_inverse (x y : string)
    (Hx_ascii : Py.isascii x = true)
    (Hx_lower : Py.lower x = x)
    (Hx : requires_quotes x = false)
    (Hy_ascii : Py.isascii y = true)
    (Hy_upper : Py.upper y = y)
    (Hy : requires_quotes (Py.lower y) = false) :
  normalize_name self (denormalize_name self (Some x)) = Some x /\
  denormalize_name self (normalize_name self (Some y)) = Some y /\
  normalize_name self (denormalize_name self (normalize_name self (Some y)))
    = normalize_name self (Some y).
Proof.
  assert (Hyx : denormalize_name self (normalize_name self (Some y)) = Some y).
  { rewrite normalize_name_lowers by done.
    rewrite denormalize_name_uppers by (by rewrite lower_idem).
    by rewrite upper_lower, Hy_upper. }
  split; [|split].
  - rewrite denormalize_name_uppers by (by rewrite Hx_lower).
    rewrite normalize_name_lowers.
    + by rewrite lower_upper, Hx_lower.
    + apply upper_idem.
    + by rewrite lower_upper, Hx_lower.
  - done.
  - by rewrite Hyx.
Qed.

(** C7: for every identifier [x] that requires quoting (it is of mixed
    case, or its lower-cased form needs quotes), [normalize_name] and
    [denormalize_name] both return [x] itself; both functions map [None] to
    [None]. *)
Theorem quoted_names_pass_through (x : string)
    (Hq : requires_quoting self x) :
  normalize_name self (Some x) = Some x /\
  denormalize_name self (Some x) = Some x /\
  normalize_name self None = None /\
  denormalize_name self None = None.
Proof.
  destruct Hq as [[Hu Hl] | Hq].
  - split; [apply normalize_name_keeps; by left|].
    split; [apply denormalize_name_keeps; by left|done].
  - split; [apply normalize_name_keeps; by right|].
    split; [apply denormalize_name_keeps; by right|done].
Qed.

End Names.

(** The toolkit's own predicate only accepts all-lower-case ASCII names
    (see also [toolkit_unquoted_is_ascii]), so for it the premises of C1 on
    [x] are no restriction. *)
Lemma toolkit_unquoted_is_lower x :
  Toolkit._requires_quotes x = false -> Py.lower x = x.
Proof.
  unfold Toolkit._requires_quotes. intros H.
  apply orb_false_elim in H as [_ H]. apply negb_false_iff in H.
  by apply String.eqb_eq.
Qed.

Lemma toolkit_normalize_denormalize x :
  Toolkit._requires_quotes x = false ->
  normalize_name Toolkit.dialect (denormalize_name Toolkit.dialect (Some x)) = Some x.
Proof.
  intros H. pose proof (toolkit_unquoted_is_lower x H) as Hl.
  rewrite denormalize_name_uppers by (by rewrite ?Hl).
  rewrite normalize_name_lowers.
  - by rewrite lower_upper, Hl.
  - apply upper_idem.
  - by rewrite lower_upper, Hl.
Qed.

(** Witness of C1: the identifiers [abc] and [ABC] under the toolkit's
    preparer. *)
Lemma normalize_denormalize_inverse_witness :
  normalize_name Toolkit.dialect (denormalize_name Toolkit.dialect (Some "abc")) = Some "abc" /\
  denormalize_name Toolkit.dialect (normalize_name Toolkit.dialect (Some "ABC")) = Some "ABC" /\
  normalize_name Toolkit.dialect
    (denormalize_name Toolkit.dialect (normalize_name Toolkit.dialect (Some "ABC")))
    = normalize_name Toolkit.dialect (Some "ABC").
Proof.
  apply (normalize_denormalize_inverse Toolkit.dialect "abc" "ABC"); reflexivity.
Defined.

(** C1 as stated fails: [abc] does not require quoting, yet denormalizing
    its normalized form yields [ABC]. *)
Lemma denormalize_normalize_not_identity :
  _requires_quotes (identifier_preparer Toolkit.dialect) "abc" = false /\
  denormalize_name Toolkit.dialect (normalize_name Toolkit.dialect (Some "abc")) = Some "ABC" /\
  denormalize_name Toolkit.dialect (normalize_name Toolkit.dialect (Some "abc")) <> Some "abc".
Proof. split; [reflexivity|]. split; [reflexivity|]. discriminate. Qed.

(** Witness of C7: the reserved word [select]. *)
Lemma quoted_names_pass_through_witness :
  normalize_name Toolkit.dialect (Some "select") = Some "select" /\
  denormalize_name Toolkit.dialect (Some "select") = Some "select" /\
  normalize_name Toolkit.dialect None = None /\
  denormalize_name Toolkit.dialect None = None.
Proof.
  apply (quoted_names_pass_through Toolkit.dialect "select").
  right. reflexivity.
Defined.

(** A name of mixed case passes through as well, and so does an upper-case
    reserved word. *)
Example mixed_case_name_passes_through :
  requires_quoting Toolkit.dialect "Order Date" /\
  normalize_name Toolkit.dialect (Some "Order Date") = Some "Order Date" /\
  denormalize_name Toolkit.dialect (Some "Order Date") = Some "Order Date" /\
  requires_quoting Toolkit.dialect "SELECT" /\
  normalize_name Toolkit.dialect (Some "SELECT") = Some "SELECT" /\
  denormalize_name Toolkit.dialect (Some "SELECT") = Some "SELECT".
Proof.
  repeat split; try reflexivity.
  - left. split; discriminate.
  - right. reflexivity.
Qed.

(** The preparer's own test asks for quotes on every name that is not
    lower-case, [ABC] included; the dialect applies the test to the
    lower-cased form, so that an all-upper-case name of the catalog that is
    no reserved word does not require quoting and is lower-cased. *)
Example upper_case_name_is_lowered :
  _requires_quotes (identifier_preparer Toolkit.dialect) "ABC" = true /\
  ~ requires_quoting Toolkit.dialect "ABC" /\
  normalize_name Toolkit.dialect (Some "ABC") = Some "abc".
Proof.
  split; [reflexivity|]. split; [|reflexivity].
  intros [[Hu _] | Hq]; [by apply Hu | discriminate Hq].
Qed.

(** ** DDL text of unique constraints *)

(** A named constraint is emitted without its name: the preparer never
    yields a formatted name. *)
Lemma visit_unique_constraint_unnamed_text self constraint :
  Constraint.columns constraint <> [] ->
  visit_unique_constraint self constraint =
    ("UNIQUE (" +:+
     Py.join ", " (map (fun c => quote (preparer self) (Column.name c))
                       (Constraint.columns constraint)) +:+ ")")
    +:+ define_constraint_deferrability self constraint.
Proof.
  intros Hne. unfold visit_unique_constraint, format_constraint.
  destruct (Constraint.columns constraint) as [|c cs]; [done|].
  simpl. by destruct (Constraint.name constraint).
Qed.

(** C5: on a constraint with zero columns [visit_unique_constraint] returns
    the empty string; on an unnamed constraint over the two columns [a] and
    [b], whose names the preparer leaves unquoted, and with an empty
    deferrability clause, it returns exactly [UNIQUE (a, b)]. *)
Theorem visit_unique_constraint_text (self : DDLCompiler) (empty ab : Constraint.t)
    (Hempty : Constraint.columns empty = [])
    (Hname : Constraint.name ab = None)
    (Hcolumns : map Column.name (Constraint.columns ab) = ["a"; "b"])
    (Ha : quote (preparer self) "a" = "a")
    (Hb : quote (preparer self) "b" = "b")
    (Hdefer : define_constraint_deferrability self ab = EmptyString) :
  visit_unique_constraint self empty = EmptyString /\
  visit_unique_constraint self ab = "UNIQUE (a, b)".
Proof.
  split.
  - unfold visit_unique_constraint. by rewrite Hempty.
  - unfold visit_unique_constraint. rewrite Hname, Hdefer.
    destruct (Constraint.columns ab) as [|[ca] [|[cb] [|? ?]]]; try done.
    simpl in Hcolumns. injection Hcolumns as -> ->.
    simpl. by rewrite Ha, Hb.
Qed.

(** Witness of C5: the toolkit's compiler on the empty constraint and on
    UNIQUE(a, b). *)
Lemma visit_unique_constraint_text_witness :
  visit_unique_constraint Toolkit.ddl_compiler
    (Constraint.Build_t None [] None None) = EmptyString /\
  visit_unique_constraint Toolkit.ddl_compiler
    (Constraint.Build_t None [Column.Build_t "a"; Column.Build_t "b"] None None)
    = "UNIQUE (a, b)".
Proof.
  apply (visit_unique_constraint_text Toolkit.ddl_compiler
           (Constraint.Build_t None [] None None)
           (Constraint.Build_t None [Column.Build_t "a"; Column.Build_t "b"] None None));
    reflexivity.
Defined.

(** ** Connection arguments *)

Section ConnectArgs.

Variable self : HANADialect.

(** What the toolkit's translation puts under each key when the user name
    is renamed to [user]. *)
Lemma translate_connect_args_user url k :
  URL.translate_connect_args url {[ "username" := "user" ]} !! k =
    if String.eqb k "port" then
      match URL.port url with
      | Some p => if (p =? 0)%Z then None else Some (Int p)
      | None => None
      end
    else if String.eqb k "password" then
      match URL.password url with
      | Some (String c s) => Some (Str (String c s))
      | _ => None
      end
    else if String.eqb k "user" then
      match URL.username url with
      | Some (String c s) => Some (Str (String c s))
      | _ => None
      end
    else if String.eqb k "database" then
      match URL.database url with
      | Some (String c s) => Some (Str (String c s))
      | _ => None
      end
    else if String.eqb k "host" then
      match URL.host url with
      | Some (String c s) => Some (Str (String c s))
      | _ => None
      end
    else None.
Proof.
  unfold URL.translate_connect_args. cbn [foldl URL.attribute_names].
  replace (({[ "username" := "user" ]} : gmap string string) !! "host") with (@None string) by done.
  replace (({[ "username" := "user" ]} : gmap string string) !! "database") with (@None string) by done.
  replace (({[ "username" := "user" ]} : gmap string string) !! "username") with (Some "user") by done.
  replace (({[ "username" := "user" ]} : gmap string string) !! "password") with (@None string) by done.
  replace (({[ "username" := "user" ]} : gmap string string) !! "port") with (@None string) by done.
  cbn [default URL.getattr String.eqb Ascii.eqb Bool.eqb].
  destruct url as [h d u pw p]; cbn [URL.host URL.database URL.username URL.password URL.port].
  destruct (String.eqb_spec k "port") as [->|Hport];
  [|destruct (String.eqb_spec k "password") as [->|Hpw];
  [|destruct (String.eqb_spec k "user") as [->|Huser];
  [|destruct (String.eqb_spec k "database") as [->|Hdb];
  [|destruct (String.eqb_spec k "host") as [->|Hhost]]]]];
  destruct h as [[|? ?]|], d as [[|? ?]|], u as [[|? ?]|], pw as [[|? ?]|], p as [p|];
  cbn [fmap option_fmap option_map value_truthy negb];
  try destruct (Z.eqb p 0); cbn [negb];
  by simplify_map_eq.
Qed.

End ConnectArgs.

(** C8, amended: for every connection URL the keyword mapping returned by
    [create_connect_args] has the username renamed to the key [user] (when
    the URL gives a user name, a non-empty text, it is found under [user],
    and nothing is ever under [username]); its port is 30015 when the URL
    specifies no port (or the port 0, which the translation drops), and any
    other port given in the URL is preserved unchanged. *)
Theorem create_connect_args_user_and_port (self : HANADialect) (url : URL.t) :
  let kwargs := (create_connect_args self url).2 in
  kwargs !! "username" = None /\
  kwargs !! "user" =
    match URL.username url with
    | Some (String c s) => Some (Str (String c s))
    | _ => None
    end /\
  kwargs !! "port" =
    Some (Int match URL.port url with
              | Some p => if (p =? 0)%Z then 30015 else p
              | None => 30015
              end).
Proof.
  cbn zeta. unfold create_connect_args, Py.setdefault. cbn [snd].
  pose proof (translate_connect_args_user url "port") as Hport.
  pose proof (translate_connect_args_user url "user") as Huser.
  pose proof (translate_connect_args_user url "username") as Hname.
  cbn [String.eqb Ascii.eqb Bool.eqb] in Hport, Huser, Hname.
  destruct (URL.translate_connect_args url _ !! "port") as [v|] eqn:Hv.
  - rewrite Hv, Hname, Huser. split; [done|]. split; [done|].
    destruct (URL.port url) as [p|]; [|done].
    destruct (p =? 0)%Z; [done|]. by injection Hport as ->.
  - rewrite lookup_insert_ne by done. rewrite lookup_insert_ne by done.
    rewrite lookup_insert_eq, Hname, Huser. split; [done|]. split; [done|].
    destruct (URL.port url) as [p|]; [|done].
    by destruct (p =? 0)%Z.
Qed.

(** C8 as stated fails: a URL that gives the port 30015 itself yields port
    30015 although it specifies a port, and a URL that gives the port 0
    yields 30015 instead of the port it gave. *)
Lemma create_connect_args_port_given :
  (create_connect_args Toolkit.dialect (Sample.url_with_port 30015)).2 !! "port"
    = Some (Int 30015) /\
  URL.port (Sample.url_with_port 30015) <> None /\
  (create_connect_args Toolkit.dialect (Sample.url_with_port 0)).2 !! "port"
    = Some (Int 30015) /\
  URL.port (Sample.url_with_port 0) = Some 0%Z.
Proof. vm_compute. repeat split; discriminate. Qed.

(** ** Reflection *)

(** A loop that appends one item per row builds the list of those items. *)
Lemma foldl_append {A B} (f : A -> B) (rows : list A) (acc : list B) :
  foldl (fun items row => items ++ [f row]) acc rows = acc ++ map f rows.
Proof.
  revert acc. induction rows as [|row rows IH]; intros acc; simpl.
  - by rewrite app_nil_r.
  - rewrite IH. by rewrite <- app_assoc.
Qed.

Section Reflected.

Variable self : HANADialect.
Variable connection : Connection.
Variable table_name : string.
Variable schema : option string.

(** The values bound to [:schema] and [:table] by every reflection method. *)
Local Abbreviation bound_schema :=
  (Py.unicode (denormalize_name self (Py.or_ schema (default_schema_name self)))).
Local Abbreviation bound_table :=
  (Py.unicode (denormalize_name self (Some table_name))).

(** *** Primary keys *)

Lemma get_pk_constraint_loop (rows : list constraints_row) name columns :
  foldl (fun '(constraint_name, constrained_columns) '(row0, row1) =>
           (Some row0, constrained_columns ++ [normalize_name self (Some row1)]))
        (name, columns) rows
  = (from_option Some name (fst <$> last rows),
     columns ++ map (fun row => normalize_name self (Some row.2)) rows).
Proof.
  revert name columns. induction rows as [|[row0 row1] rows IH]; intros name columns.
  - simpl. by rewrite app_nil_r.
  - cbn [foldl]. rewrite IH. rewrite <- app_assoc. f_equal.
    destruct rows as [|row rows]; [done|].
    change (last ((row0, row1) :: row :: rows)) with (last (row :: rows)).
    assert (is_Some (last (row :: rows))) as [r ->] by by apply last_is_Some.
    done.
Qed.

Lemma get_pk_constraint_rows :
  get_pk_constraint self connection table_name schema =
    let rows := CONSTRAINTS connection bound_schema bound_table in
    {| PrimaryKey.name := normalize_name self (fst <$> last rows);
       PrimaryKey.constrained_columns :=
         map (fun row => normalize_name self (Some row.2)) rows |}.
Proof.
  unfold get_pk_constraint. rewrite get_pk_constraint_loop. cbn zeta.
  by destruct (last _) as [[row0 row1]|].
Qed.

(** C6: when the catalog query of [get_pk_constraint] returns no row, the
    result, returned as a value and not as an error, has the constraint name
    [None] and an empty list of constrained columns. *)
Theorem get_pk_constraint_no_rows
    (Hrows : CONSTRAINTS connection bound_schema bound_table = []) :
  get_pk_constraint self connection table_name schema =
    {| PrimaryKey.name := None; PrimaryKey.constrained_columns := [] |}.
Proof. unfold get_pk_constraint. by rewrite Hrows. Qed.

(** *** Foreign keys *)

Lemma get_foreign_keys_rows :
  get_foreign_keys self connection table_name schema =
    map (get_foreign_keys_row self schema)
        (REFERENTIAL_CONSTRAINTS connection bound_schema bound_table).
Proof. unfold get_foreign_keys. by rewrite foldl_append. Qed.

(** What each reflected foreign key holds: no name, the normalized column,
    table and referred column, and the referenced schema as the catalog
    spells it, reported when a schema was asked for or when it is not the
    default schema. *)
Lemma get_foreign_keys_row_fields row0 row1 row2 row3 :
  let foreign_key := get_foreign_keys_row self schema (row0, row1, row2, row3) in
  ForeignKey.name foreign_key = None /\
  ForeignKey.constrained_columns foreign_key = [normalize_name self (Some row0)] /\
  ForeignKey.referred_table foreign_key = normalize_name self (Some row2) /\
  ForeignKey.referred_columns foreign_key = [normalize_name self (Some row3)] /\
  ForeignKey.referred_schema foreign_key =
    (if bool_decide (schema <> None) || bool_decide (Some row1 <> default_schema_name self)
     then Some row1 else None).
Proof. cbn zeta. unfold get_foreign_keys_row. by destruct (_ || _). Qed.

Lemma get_foreign_keys_schema_reported row0 row1 row2 row3 :
  ForeignKey.referred_schema (get_foreign_keys_row self schema (row0, row1, row2, row3)) <> None
  <-> schema <> None \/ Some row1 <> default_schema_name self.
Proof.
  destruct (get_foreign_keys_row_fields row0 row1 row2 row3) as (_ & _ & _ & _ & ->).
  destruct (bool_decide (schema <> None)) eqn:Hs;
    destruct (bool_decide (Some row1 <> default_schema_name self)) eqn:Hd;
    cbn [orb];
    try apply bool_decide_eq_true in Hs; try apply bool_decide_eq_true in Hd;
    try apply bool_decide_eq_false in Hs; try apply bool_decide_eq_false in Hd;
    split; try done; auto.
  intros [H|H]; [by destruct Hs | by destruct Hd].
Qed.

End Reflected.

(** Witness of C6: the sample table has no primary key. *)
Lemma get_pk_constraint_no_rows_witness :
  get_pk_constraint Toolkit.dialect Sample.connection "T" None =
    {| PrimaryKey.name := None; PrimaryKey.constrained_columns := [] |}.
Proof.
  apply (get_pk_constraint_no_rows Toolkit.dialect Sample.connection "T" None).
  reflexivity.
Defined.

(** C2, the divergence: for the sample table, reflected with no explicit
    schema by a dialect whose default schema is [ME], the foreign key into
    the schema [OTHER] reports that schema as [OTHER], the catalog's
    spelling, while every other identifier of the same entry is normalized
    and [normalize_name] turns [OTHER] into [other]. *)
Theorem get_foreign_keys_schema_not_normalized :
  get_foreign_keys Toolkit.dialect Sample.connection "T" None =
    [ {| ForeignKey.name := None;
         ForeignKey.constrained_columns := [Some "owner_id"];
         ForeignKey.referred_schema := Some "OTHER";
         ForeignKey.referred_table := Some "owners";
         ForeignKey.referred_columns := [Some "id"] |} ] /\
  normalize_name Toolkit.dialect (Some "OTHER") = Some "other".
Proof. split; reflexivity. Qed.

(** *** Columns *)

Section Columns.

Variable types : gmap string sqltype.
Variable hana_types : gmap string sqltype.
Variable self : HANADialect.
Variable connection : Connection.
Variable table_name : string.
Variable schema : option string.

Local Abbreviation column_rows :=
  (TABLE_COLUMNS connection
     (Py.unicode (denormalize_name self (Py.or_ schema (default_schema_name self))))
     (Py.unicode (denormalize_name self (Some table_name)))).

Local Abbreviation column_of row := (get_columns_row types hana_types self row).1.
Local Abbreviation warnings_of row := (get_columns_row types hana_types self row).2.

(** The loop yields one descriptor per row, in row order, and the warnings
    of the rows one after the other. *)
Lemma get_columns_loop (rows : list table_columns_row) columns warned :
  foldl (fun '(columns, warned) row =>
           let '(column, warnings) := get_columns_row types hana_types self row in
           (columns ++ [column], warned ++ warnings))
        (columns, warned) rows
  = (columns ++ map (fun row => column_of row) rows,
     warned ++ flat_map (fun row => warnings_of row) rows).
Proof.
  revert columns warned. induction rows as [|row rows IH]; intros columns warned.
  - simpl. by rewrite !app_nil_r.
  - cbn [foldl map flat_map].
    destruct (get_columns_row types hana_types self row) as [column warnings] eqn:Hrow.
    rewrite IH. cbn [fst snd]. by rewrite <- !app_assoc.
Qed.

Lemma get_columns_rows :
  get_columns types hana_types self connection table_name schema =
    (map (fun row => column_of row) column_rows,
     flat_map (fun row => warnings_of row) column_rows).
Proof. unfold get_columns. by rewrite get_columns_loop. Qed.

(** A row whose type name is in neither registry. *)
Lemma get_columns_row_unknown row0 row1 row2 row3 row4 row5 :
  types !! row1 = None -> hana_types !! row1 = None ->
  get_columns_row types hana_types self (row0, row1, row2, row3, row4, row5) =
    ({| ColumnInfo.name := normalize_name self (Some row0);
        ColumnInfo.default := row2;
        ColumnInfo.nullable := bool_decide (row3 = Some "TRUE");
        ColumnInfo.type_ := NULLTYPE |},
     ["Did not recognize type '" +:+ row1 +:+ "' of column '"
        +:+ Py.unicode (normalize_name self (Some row0)) +:+ "'"]).
Proof. intros Ht Hh. unfold get_columns_row. by rewrite Ht, Hh. Qed.

Lemma get_columns_row_nullable row0 row1 row2 row3 row4 row5 :
  ColumnInfo.nullable (column_of (row0, row1, row2, row3, row4, row5))
  = bool_decide (row3 = Some "TRUE").
Proof.
  unfold get_columns_row.
  by destruct (types !! row1) as [?|]; [|destruct (hana_types !! row1) as [?|]].
Qed.

(** C4: when a catalog row names a type found in neither registry,
    [get_columns] still returns its list: the rows before and after are
    reflected as they are without it, the row itself contributes exactly one
    descriptor, with the placeholder type NULLTYPE, and exactly one
    warning is issued for it. *)
Theorem get_columns_unknown_type
    (before after : list table_columns_row)
    (row0 row1 : string) (row2 row3 : option string) (row4 row5 : option Z)
    (Hrows : column_rows = before ++ (row0, row1, row2, row3, row4, row5) :: after)
    (Htypes : types !! row1 = None)
    (Hhana : hana_types !! row1 = None) :
  get_columns types hana_types self connection table_name schema =
    (map (fun row => column_of row) before
       ++ [ {| ColumnInfo.name := normalize_name self (Some row0);
               ColumnInfo.default := row2;
               ColumnInfo.nullable := bool_decide (row3 = Some "TRUE");
               ColumnInfo.type_ := NULLTYPE |} ]
       ++ map (fun row => column_of row) after,
     flat_map (fun row => warnings_of row) before
       ++ [ "Did not recognize type '" +:+ row1 +:+ "' of column '"
              +:+ Py.unicode (normalize_name self (Some row0)) +:+ "'" ]
       ++ flat_map (fun row => warnings_of row) after) /\
  length (get_columns types hana_types self connection table_name schema).1
    = length column_rows.
Proof.
  rewrite get_columns_rows. split.
  - rewrite Hrows, map_app, flat_map_app. cbn [map flat_map].
    by rewrite get_columns_row_unknown.
  - cbn [fst]. by rewrite length_map.
Qed.

(** C10: the descriptors returned by [get_columns] match the catalog rows
    one for one, and in each the [nullable] field is true exactly when the
    row's IS_NULLABLE value is the string TRUE; the values [true], [True]
    and null thus yield false. *)
Theorem get_columns_nullable :
  Forall2 (fun (row : table_columns_row) column =>
             ColumnInfo.nullable column = true <-> row.1.1.2 = Some "TRUE")
          column_rows
          (get_columns types hana_types self connection table_name schema).1 /\
  Some "true" <> Some "TRUE" /\ Some "True" <> Some "TRUE" /\ None <> Some "TRUE".
Proof.
  split; [|done].
  rewrite get_columns_rows. cbn [fst].
  induction column_rows as [|[[[[[row0 row1] row2] row3] row4] row5] rows IH];
    constructor; [|done].
  rewrite get_columns_row_nullable. cbn [fst snd].
  apply bool_decide_eq_true.
Qed.

End Columns.

(** Witness of C4: the column SHAPE of the sample table has the type
    ST_GEOMETRY, which neither registry knows. *)
Lemma get_columns_unknown_type_witness :
  get_columns Sample.types Sample.hana_types Toolkit.dialect Sample.connection "T" None =
    ([ {| ColumnInfo.name := Some "id"; ColumnInfo.default := None;
          ColumnInfo.nullable := false; ColumnInfo.type_ := Exported "INTEGER" |};
       {| ColumnInfo.name := Some "shape"; ColumnInfo.default := None;
          ColumnInfo.nullable := true; ColumnInfo.type_ := NULLTYPE |};
       {| ColumnInfo.name := Some "note"; ColumnInfo.default := Some "-";
          ColumnInfo.nullable := false; ColumnInfo.type_ := VARCHAR (Some 20%Z) |} ],
     [ "Did not recognize type 'ST_GEOMETRY' of column 'shape'" ]) /\
  length (get_columns Sample.types Sample.hana_types Toolkit.dialect
            Sample.connection "T" None).1 = 3.
Proof.
  apply (get_columns_unknown_type Sample.types Sample.hana_types Toolkit.dialect
           Sample.connection "T" None
           [("ID", "INTEGER", None, Some "FALSE", Some 10%Z, Some 0%Z)]
           [("NOTE", "VARCHAR", Some "-", Some "true", Some 20%Z, None)]
           "SHAPE" "ST_GEOMETRY" None (Some "TRUE") None None);
    reflexivity.
Defined.

(** *** Indexes *)

Section Indexes.

Variable self : HANADialect.

Local Abbreviation column_of row := (normalize_name self (Some row.1.2)).

Lemma append_columns_nil entry : append_columns entry [] = entry.
Proof. destruct entry. unfold append_columns. simpl. by rewrite app_nil_r. Qed.

Lemma append_columns_app entry xs ys :
  append_columns (append_columns entry xs) ys = append_columns entry (xs ++ ys).
Proof. unfold append_columns. simpl. by rewrite app_assoc. Qed.

Lemma described_index_rows_cons name row rows :
  described_index_rows self name (row :: rows) =
    if reserved_prefix row then described_index_rows self name rows
    else if decide (normalize_name self (Some row.1.1) = name)
         then row :: described_index_rows self name rows
         else described_index_rows self name rows.
Proof.
  unfold described_index_rows.
  destruct (reserved_prefix row) eqn:Hp.
  - rewrite (filter_cons_False (fun row => reserved_prefix row = false)); [done|].
    by rewrite Hp.
  - rewrite (filter_cons_True (fun row => reserved_prefix row = false)) by done.
    destruct (decide _) as [Hn|Hn].
    + by rewrite filter_cons_True.
    + by rewrite filter_cons_False.
Qed.

(** The dictionary after the loop, key by key: an entry present before
    gains the columns of the rows grouped under its key, and an absent key
    gets the described entry of its rows. *)
Lemma get_indexes_loop_lookup (rows : list index_columns_row)
    (indexes : gmap (option string) Index.t) (name : option string) :
  foldl (get_indexes_row self) indexes rows !! name =
    match indexes !! name with
    | Some entry =>
        Some (append_columns entry
                (map (fun row => column_of row) (described_index_rows self name rows)))
    | None => described_index_entry self name rows
    end.
Proof.
  revert indexes. induction rows as [|[[n c] m] rows IH]; intros indexes.
  - simpl. destruct (indexes !! name) as [entry|]; [|done].
    by rewrite append_columns_nil.
  - cbn [foldl]. rewrite IH. unfold described_index_entry.
    rewrite described_index_rows_cons.
    unfold get_indexes_row, reserved_prefix. cbn [fst snd].
    destruct (Py.startswith n "_SYS"); [done|].
    destruct (decide (normalize_name self (Some n) = name)) as [<-|Hne].
    + destruct (indexes !! normalize_name self (Some n)) as [entry|] eqn:Hentry.
      * rewrite lookup_insert_eq. f_equal. apply append_columns_app.
      * rewrite lookup_insert_eq. done.
    + destruct (indexes !! normalize_name self (Some n)) as [entry|] eqn:Hentry;
        by rewrite lookup_insert_ne.
Qed.

Lemma get_indexes_loop_empty (rows : list index_columns_row) name :
  foldl (get_indexes_row self) ∅ rows !! name = described_index_entry self name rows.
Proof. by rewrite get_indexes_loop_lookup, lookup_empty. Qed.

Lemma described_index_entry_name name rows entry :
  described_index_entry self name rows = Some entry -> Index.name entry = name.
Proof.
  unfold described_index_entry.
  destruct (described_index_rows self name rows); [done|]. by intros [= <-].
Qed.

(** A lower-cased name never carries the reserved prefix. *)
Lemma lower_char_not_S c : Ascii.eqb (Py.lower_char c) "S" = false.
Proof. destruct c as [[] [] [] [] [] [] [] []]; reflexivity. Qed.

Lemma lower_no_reserved_prefix x : Py.startswith (Py.lower x) "_SYS" = false.
Proof.
  destruct x as [|c0 [|c1 x]]; [done| |].
  - cbn. by rewrite andb_false_r.
  - cbn [Py.lower Py.startswith]. by rewrite lower_char_not_S, andb_false_r.
Qed.

Lemma normalized_no_reserved_prefix x name :
  Py.startswith x "_SYS" = false ->
  normalize_name self (Some x) = Some name ->
  Py.startswith name "_SYS" = false.
Proof.
  intros Hx. destruct (normalize_name_cases self x) as [-> | ->]; intros [= <-].
  - done.
  - apply lower_no_reserved_prefix.
Qed.

Lemma described_index_rows_elem name rows row :
  row ∈ described_index_rows self name rows ->
  reserved_prefix row = false /\ normalize_name self (Some row.1.1) = name.
Proof.
  unfold described_index_rows. intros H.
  apply list_elem_of_filter in H as [Hn H].
  apply list_elem_of_filter in H as [Hp _]. done.
Qed.

(** The uniqueness flag against the occurrence of UNIQUE in the marker. *)
Lemma unique_of_marker_spec marker :
  unique_of_marker marker = true <->
  exists c, marker = Some c /\ occurs_ignoring_case "UNIQUE" c.
Proof.
  unfold unique_of_marker, occurs_ignoring_case. destruct marker as [c|].
  - rewrite contains_spec. split.
    + intros (pre & post & H). exists c. split; [done|].
      apply upper_split in H as (s1 & s23 & -> & H1 & H23).
      apply upper_split in H23 as (s2 & s3 & -> & H2 & H3).
      by exists s1, s2, s3.
    + intros (c' & [= <-] & pre & mid & post & -> & Hmid).
      exists (Py.upper pre), (Py.upper post).
      by rewrite !upper_app, Hmid.
  - split; [done|]. by intros (c & H & _).
Qed.

End Indexes.

Section GetIndexes.

Variable self : HANADialect.
Variable connection : Connection.
Variable table_name : string.
Variable schema : option string.

Local Abbreviation index_rows :=
  (INDEX_COLUMNS connection
     (Py.unicode (denormalize_name self (Py.or_ schema (default_schema_name self))))
     (Py.unicode (denormalize_name self (Some table_name)))).

Local Abbreviation indexes := (get_indexes self connection table_name schema).

(** The returned entries are the values of the final dictionary, each
    stored under its own name. *)
Lemma get_indexes_elem entry :
  entry ∈ indexes <-> described_index_entry self (Index.name entry) index_rows = Some entry.
Proof.
  unfold get_indexes. rewrite list_elem_of_fmap. split.
  - intros ([k e] & -> & H). apply elem_of_map_to_list in H.
    rewrite get_indexes_loop_empty in H. cbn [snd].
    by rewrite (described_index_entry_name _ _ _ _ H).
  - intros H. exists (Index.name entry, entry). split; [done|].
    apply elem_of_map_to_list. by rewrite get_indexes_loop_empty.
Qed.

Lemma get_indexes_names_NoDup : NoDup (Index.name <$> indexes).
Proof.
  unfold get_indexes.
  set (m := foldl (get_indexes_row self) ∅ index_rows).
  assert (Index.name <$> (map_to_list m).*2 = (map_to_list m).*1) as ->.
  { rewrite <- list_fmap_compose. apply Forall_fmap_ext, Forall_forall.
    intros [k e] H. apply elem_of_map_to_list in H. unfold m in H.
    rewrite get_indexes_loop_empty in H. cbn.
    by apply described_index_entry_name in H. }
  apply NoDup_fst_map_to_list.
Qed.

Lemma get_indexes_first_row entry :
  entry ∈ indexes ->
  exists first others,
    described_index_rows self (Index.name entry) index_rows = first :: others /\
    Index.unique entry = unique_of_marker first.2 /\
    Index.column_names entry =
      map (fun row => normalize_name self (Some row.1.2)) (first :: others).
Proof.
  rewrite get_indexes_elem. unfold described_index_entry.
  destruct (described_index_rows self (Index.name entry) index_rows)
    as [|first others]; [done|].
  intros [= <-]. by exists first, others.
Qed.

(** C3: in the result of [get_indexes], rows whose index name starts with
    [_SYS] play no part: the entries are exactly the described ones, built
    from the other rows only, and no entry bears a name with that prefix;
    there is a single entry per index name, holding the columns of all rows
    that share the name, in query order; and an entry's [unique] flag is
    true exactly when UNIQUE occurs, case ignored, in the constraint marker
    of its (first) row. *)
Theorem get_indexes_grouping :
  (forall entry,
     entry ∈ indexes <->
     described_index_entry self (Index.name entry) index_rows = Some entry) /\
  (forall entry name,
     entry ∈ indexes -> Index.name entry = Some name ->
     Py.startswith name "_SYS" = false) /\
  NoDup (Index.name <$> indexes) /\
  (forall entry,
     entry ∈ indexes ->
     exists first others,
       described_index_rows self (Index.name entry) index_rows = first :: others /\
       Index.column_names entry =
         map (fun row => normalize_name self (Some row.1.2)) (first :: others) /\
       (Index.unique entry = true <->
        exists marker, first.2 = Some marker /\ occurs_ignoring_case "UNIQUE" marker)).
Proof.
  split; [apply get_indexes_elem|]. split; [|split; [apply get_indexes_names_NoDup|]].
  - intros entry name Hin Hname.
    destruct (get_indexes_first_row entry Hin) as (first & others & Hrows & _ & _).
    assert (first ∈ described_index_rows self (Index.name entry) index_rows) as Hfirst
      by (rewrite Hrows; left).
    apply described_index_rows_elem in Hfirst as [Hp Hn].
    rewrite Hname in Hn. by apply (normalized_no_reserved_prefix self first.1.1).
  - intros entry Hin.
    destruct (get_indexes_first_row entry Hin) as (first & others & Hrows & Hu & Hc).
    exists first, others. split; [done|]. split; [done|].
    rewrite Hu. apply unique_of_marker_spec.
Qed.

Lemma described_index_rows_app name xs ys :
  described_index_rows self name (xs ++ ys) =
    described_index_rows self name xs ++ described_index_rows self name ys.
Proof. unfold described_index_rows. by rewrite !filter_app. Qed.

Lemma described_index_rows_none name rows :
  (forall row, row ∈ rows -> reserved_prefix row = false ->
               normalize_name self (Some row.1.1) <> name) ->
  described_index_rows self name rows = [].
Proof.
  induction rows as [|row rows IH]; intros H; [done|].
  rewrite described_index_rows_cons.
  destruct (reserved_prefix row) eqn:Hp.
  - apply IH. intros r Hr. apply H. by right.
  - destruct (decide _) as [Hn|Hn].
    + exfalso. by apply (H row); [left| |].
    + apply IH. intros r Hr. apply H. by right.
Qed.

(** C9: when a row that is kept is the first of the query result with its
    (normalized) index name, the result has an entry of that name, and every
    entry of that name has the [unique] flag computed from the marker of
    that row alone, whatever rows follow: false when the marker is null. *)
Theorem get_indexes_unique_from_first_row
    (before after : list index_columns_row)
    (name column : string) (marker : option string)
    (Hrows : index_rows = before ++ (name, column, marker) :: after)
    (Hkept : Py.startswith name "_SYS" = false)
    (Hfirst : forall row, row ∈ before -> reserved_prefix row = false ->
                normalize_name self (Some row.1.1) <> normalize_name self (Some name)) :
  (exists entry, entry ∈ indexes /\ Index.name entry = normalize_name self (Some name)) /\
  (forall entry,
     entry ∈ indexes -> Index.name entry = normalize_name self (Some name) ->
     Index.unique entry = unique_of_marker marker /\
     (marker = None -> Index.unique entry = false)).
Proof.
  assert (Hgroup : described_index_rows self (normalize_name self (Some name)) index_rows
                   = (name, column, marker)
                       :: described_index_rows self (normalize_name self (Some name)) after).
  { rewrite Hrows, described_index_rows_app, described_index_rows_none by done.
    rewrite described_index_rows_cons. unfold reserved_prefix. cbn [fst snd].
    rewrite Hkept. by rewrite decide_True. }
  split.
  - eexists {| Index.name := normalize_name self (Some name) |}.
    split; [|done]. apply get_indexes_elem. cbn [Index.name].
    unfold described_index_entry. rewrite Hgroup. done.
  - intros entry Hin Hname.
    destruct (get_indexes_first_row entry Hin) as (first & others & Hr & Hu & _).
    rewrite Hname, Hgroup in Hr. injection Hr as <- _.
    split; [done|]. intros ->. by rewrite Hu.
Qed.

End GetIndexes.

(** Witness of C9: in the sample catalog the first row of the index IDX has
    a null marker and a later row of the same index is marked UNIQUE; the
    entry is not unique. *)
Lemma get_indexes_unique_from_first_row_witness :
  (exists entry,
     entry ∈ get_indexes Toolkit.dialect Sample.connection "T" None /\
     Index.name entry = Some "idx") /\
  (forall entry,
     entry ∈ get_indexes Toolkit.dialect Sample.connection "T" None ->
     Index.name entry = Some "idx" ->
     Index.unique entry = false /\ (@None string = None -> Index.unique entry = false)).
Proof.
  apply (get_indexes_unique_from_first_row Toolkit.dialect Sample.connection "T" None
           [] [("_SYS_TREE_7", "ID", Some "PRIMARY KEY"); ("IDX", "NOTE", Some "UNIQUE")]
           "IDX" "ID" None).
  - reflexivity.
  - reflexivity.
  - intros row Hrow. by apply elem_of_nil in Hrow.
Defined.

(** The sample catalog reflected: one entry, the system index left out. *)
Example get_indexes_sample :
  get_indexes Toolkit.dialect Sample.connection "T" None =
    [ {| Index.name := Some "idx"; Index.unique := false;
         Index.column_names := [Some "id"; Some "note"] |} ].
Proof. vm_compute. reflexivity. Qed.

(** * Further properties of the dialect *)

(** ** Name normalization, for every name and every preparer *)

Section NamesAgain.

Variable self : HANADialect.

Local Abbreviation requires_quotes := (_requires_quotes (identifier_preparer self)).

(** Both functions by their guard. *)
Lemma normalize_name_guard x :
  normalize_name self (Some x) =
    if String.eqb (Py.upper x) x && negb (requires_quotes (Py.lower x))
    then Some (Py.lower x) else Some x.
Proof. done. Qed.

Lemma denormalize_name_guard x :
  denormalize_name self (Some x) =
    if String.eqb (Py.lower x) x && negb (requires_quotes (Py.lower x))
    then Some (Py.upper x) else Some x.
Proof. done. Qed.

Lemma normalize_name_twice name :
  normalize_name self (normalize_name self name) = normalize_name self name.
Proof.
  destruct name as [x|]; [|done].
  rewrite (normalize_name_guard x).
  destruct (String.eqb (Py.upper x) x && negb (requires_quotes (Py.lower x))) eqn:Hg.
  - rewrite normalize_name_guard, lower_idem.
    by destruct (String.eqb (Py.upper (Py.lower x)) (Py.lower x) && _).
  - by rewrite normalize_name_guard, Hg.
Qed.

Lemma denormalize_name_twice name :
  denormalize_name self (denormalize_name self name) = denormalize_name self name.
Proof.
  destruct name as [x|]; [|done].
  rewrite (denormalize_name_guard x).
  destruct (String.eqb (Py.lower x) x && negb (requires_quotes (Py.lower x))) eqn:Hg.
  - rewrite denormalize_name_guard, upper_idem.
    by destruct (String.eqb (Py.lower (Py.upper x)) (Py.upper x) && _).
  - by rewrite denormalize_name_guard, Hg.
Qed.

(** X1: normalizing twice is normalizing once, and denormalizing twice is
    denormalizing once, for every name (and for [None]). *)
Theorem normalize_denormalize_idempotent (name : option string) :
  normalize_name self (normalize_name self name) = normalize_name self name /\
  denormalize_name self (denormalize_name self name) = denormalize_name self name.
Proof. split; [apply normalize_name_twice | apply denormalize_name_twice]. Qed.

(** X2: both functions change nothing but the case of letters: the result
    is a name whose lower-cased form is that of the argument. *)
Theorem normalize_denormalize_change_case_only (x : string) :
  (exists y, normalize_name self (Some x) = Some y /\ Py.lower y = Py.lower x) /\
  (exists y, denormalize_name self (Some x) = Some y /\ Py.lower y = Py.lower x).
Proof.
  split.
  - rewrite normalize_name_guard. destruct (_ && _); eexists; split; try done.
    apply lower_idem.
  - rewrite denormalize_name_guard. destruct (_ && _); eexists; split; try done.
    apply lower_upper.
Qed.

(** The guards as propositions. *)
Lemma normalize_guard_true x :
  String.eqb (Py.upper x) x && negb (requires_quotes (Py.lower x)) = true <->
  Py.upper x = x /\ requires_quotes (Py.lower x) = false.
Proof. by rewrite andb_true_iff, String.eqb_eq, negb_true_iff. Qed.

Lemma denormalize_guard_true x :
  String.eqb (Py.lower x) x && negb (requires_quotes (Py.lower x)) = true <->
  Py.lower x = x /\ requires_quotes (Py.lower x) = false.
Proof. by rewrite andb_true_iff, String.eqb_eq, negb_true_iff. Qed.

(** When the round trip through [normalize_name] first gives the name back. *)
Lemma denormalize_normalize_iff x :
  denormalize_name self (normalize_name self (Some x)) = Some x <->
  ~ (Py.lower x = x /\ Py.upper x <> x /\ requires_quotes (Py.lower x) = false).
Proof.
  rewrite (normalize_name_guard x).
  destruct (String.eqb (Py.upper x) x && negb (requires_quotes (Py.lower x))) eqn:Hn.
  - apply normalize_guard_true in Hn as [Hu Hq].
    rewrite denormalize_name_uppers by (by rewrite ?lower_idem).
    rewrite upper_lower, Hu. split; [|done]. intros _ (_ & Hne & _). done.
  - rewrite denormalize_name_guard.
    destruct (String.eqb (Py.lower x) x && negb (requires_quotes (Py.lower x))) eqn:Hd.
    + apply denormalize_guard_true in Hd as [Hl Hq].
      assert (Py.upper x <> x) as Hu.
      { intros Hu. apply not_true_iff_false in Hn. apply Hn.
        by apply normalize_guard_true. }
      split.
      * intros [= H]. done.
      * intros H. destruct H. done.
    + split; [|done]. intros _ (Hl & _ & Hq).
      apply not_true_iff_false in Hd. apply Hd. by apply denormalize_guard_true.
Qed.

(** When the round trip through [denormalize_name] first gives the name
    back. *)
Lemma normalize_denormalize_iff x :
  normalize_name self (denormalize_name self (Some x)) = Some x <->
  ~ (Py.upper x = x /\ Py.lower x <> x /\ requires_quotes (Py.lower x) = false).
Proof.
  rewrite (denormalize_name_guard x).
  destruct (String.eqb (Py.lower x) x && negb (requires_quotes (Py.lower x))) eqn:Hd.
  - apply denormalize_guard_true in Hd as [Hl Hq].
    rewrite normalize_name_lowers; [| apply upper_idem | by rewrite lower_upper].
    rewrite lower_upper, Hl. split; [|done]. intros _ (_ & Hne & _). done.
  - rewrite normalize_name_guard.
    destruct (String.eqb (Py.upper x) x && negb (requires_quotes (Py.lower x))) eqn:Hn.
    + apply normalize_guard_true in Hn as [Hu Hq].
      assert (Py.lower x <> x) as Hl.
      { intros Hl. apply not_true_iff_false in Hd. apply Hd.
        by apply denormalize_guard_true. }
      split.
      * intros [= H]. done.
      * intros H. destruct H. done.
    + split; [|done]. intros _ (Hu & _ & Hq).
      apply not_true_iff_false in Hn. apply Hn. by apply normalize_guard_true.
Qed.

(** X3: the exact ASCII names on which a round trip fails. Denormalizing
    a normalized ASCII name gives the name back unless the name is
    all-lower-case, has a letter, and needs no quoting; normalizing a
    denormalized ASCII name gives the name back unless the name is
    all-upper-case, has a letter, and its lower-cased form needs no
    quoting. *)
Theorem round_trip_exactly (x : string)
    (Hascii : Py.isascii x = true) :
  (denormalize_name self (normalize_name self (Some x)) = Some x <->
   ~ (Py.lower x = x /\ Py.upper x <> x /\ requires_quotes (Py.lower x) = false)) /\
  (normalize_name self (denormalize_name self (Some x)) = Some x <->
   ~ (Py.upper x = x /\ Py.lower x <> x /\ requires_quotes (Py.lower x) = false)).
Proof. split; [apply denormalize_normalize_iff | apply normalize_denormalize_iff]. Qed.

(** A normalized name survives the round trip through [denormalize_name],
    and a denormalized one the round trip through [normalize_name]. *)
Lemma normalize_denormalize_normalize x :
  normalize_name self (denormalize_name self (normalize_name self (Some x)))
  = normalize_name self (Some x).
Proof.
  rewrite (normalize_name_guard x).
  destruct (String.eqb (Py.upper x) x && negb (requires_quotes (Py.lower x))) eqn:Hn.
  - apply normalize_guard_true in Hn as [Hu Hq].
    apply normalize_denormalize_iff. intros (Hu' & Hl' & _).
    by rewrite lower_idem in Hl'.
  - rewrite (denormalize_name_guard x).
    destruct (String.eqb (Py.lower x) x && negb (requires_quotes (Py.lower x))) eqn:Hd.
    + apply denormalize_guard_true in Hd as [Hl Hq].
      rewrite normalize_name_lowers; [| apply upper_idem | by rewrite lower_upper].
      by rewrite lower_upper, Hl.
    + by rewrite normalize_name_guard, Hn.
Qed.

Lemma denormalize_normalize_denormalize x :
  denormalize_name self (normalize_name self (denormalize_name self (Some x)))
  = denormalize_name self (Some x).
Proof.
  rewrite (denormalize_name_guard x).
  destruct (String.eqb (Py.lower x) x && negb (requires_quotes (Py.lower x))) eqn:Hd.
  - apply denormalize_guard_true in Hd as [Hl Hq].
    apply denormalize_normalize_iff. intros (Hl' & Hu' & _).
    by rewrite upper_idem in Hu'.
  - rewrite (normalize_name_guard x).
    destruct (String.eqb (Py.upper x) x && negb (requires_quotes (Py.lower x))) eqn:Hn.
    + apply normalize_guard_true in Hn as [Hu Hq].
      rewrite denormalize_name_uppers by (by rewrite ?lower_idem).
      by rewrite upper_lower, Hu.
    + by rewrite denormalize_name_guard, Hd.
Qed.

(** X4: for every ASCII name, normalize(denormalize(normalize(x))) is
    normalize(x) and denormalize(normalize(denormalize(x))) is
    denormalize(x): ASCII names that come out of either function survive
    the round trip through the other. *)
Theorem normalize_denormalize_stable (x : string)
    (Hascii : Py.isascii x = true) :
  normalize_name self (denormalize_name self (normalize_name self (Some x)))
    = normalize_name self (Some x) /\
  denormalize_name self (normalize_name self (denormalize_name self (Some x)))
    = denormalize_name self (Some x).
Proof.
  split; [apply normalize_denormalize_normalize | apply denormalize_normalize_denormalize].
Qed.

(** An upper-cased text is left alone by [denormalize_name]. *)
Lemma denormalize_name_upper u :
  denormalize_name self (Some (Py.upper u)) = Some (Py.upper u).
Proof.
  rewrite denormalize_name_guard. destruct (_ && _); [|done]. by rewrite upper_idem.
Qed.

(** X5: the default schema name computed from the connection URL is the
    upper-cased user name, and when it is the dialect's
    [default_schema_name], a reflection call without a schema binds exactly
    that text to [:schema]. *)
Theorem default_schema_is_bound (url : URL.t) (name : string)
    (Hname : _get_default_schema_name self url = Returns name)
    (Hdefault : default_schema_name self = Some name) :
  Some name = Py.upper <$> URL.username url /\
  Py.unicode (denormalize_name self (Py.or_ None (default_schema_name self))) = name.
Proof.
  unfold _get_default_schema_name in Hname.
  destruct (URL.username url) as [u|]; [|done]. injection Hname as <-.
  split; [done|]. rewrite Hdefault. unfold Py.or_. cbn [Py.truthy].
  by rewrite denormalize_name_upper.
Qed.

End NamesAgain.

(** Witness of X3: the name [abc], on which the first round trip fails and
    the second holds. *)
Lemma round_trip_exactly_witness :
  (denormalize_name Toolkit.dialect (normalize_name Toolkit.dialect (Some "abc")) = Some "abc"
   <-> ~ (Py.lower "abc" = "abc" /\ Py.upper "abc" <> "abc" /\
          _requires_quotes (identifier_preparer Toolkit.dialect) (Py.lower "abc") = false)) /\
  (normalize_name Toolkit.dialect (denormalize_name Toolkit.dialect (Some "abc")) = Some "abc"
   <-> ~ (Py.upper "abc" = "abc" /\ Py.lower "abc" <> "abc" /\
          _requires_quotes (identifier_preparer Toolkit.dialect) (Py.lower "abc") = false)).
Proof.
  apply (round_trip_exactly Toolkit.dialect "abc"). reflexivity.
Defined.

(** Witness of X4: the name [ABC]. *)
Lemma normalize_denormalize_stable_witness :
  normalize_name Toolkit.dialect
    (denormalize_name Toolkit.dialect (normalize_name Toolkit.dialect (Some "ABC")))
    = normalize_name Toolkit.dialect (Some "ABC") /\
  denormalize_name Toolkit.dialect
    (normalize_name Toolkit.dialect (denormalize_name Toolkit.dialect (Some "ABC")))
    = denormalize_name Toolkit.dialect (Some "ABC").
Proof.
  apply (normalize_denormalize_stable Toolkit.dialect "ABC"). reflexivity.
Defined.

(** Witness of X5: the sample URL of the user [me]. *)
Lemma default_schema_is_bound_witness :
  Some "ME" = Py.upper <$> URL.username Sample.url /\
  Py.unicode (denormalize_name Toolkit.dialect
                (Py.or_ None (default_schema_name Toolkit.dialect))) = "ME".
Proof.
  apply (default_schema_is_bound Toolkit.dialect Sample.url "ME"); reflexivity.
Defined.

(** ** Existence checks and name listings *)

Section Existence.

Variable self : HANADialect.
Variable connection : Catalog.
Variable schema : option string.

Local Abbreviation bound_schema :=
  (Py.unicode (denormalize_name self (Py.or_ schema (default_schema_name self)))).

Lemma has_first_selected {A B} (P : A -> Prop) `{!forall x, Decision (P x)}
    (f : A -> B) (rows : list A) :
  has_first (map f (filter P rows)) = true <-> exists row, row ∈ rows /\ P row.
Proof.
  unfold has_first. split.
  - destruct (filter P rows) as [|row rest] eqn:Hf; [done|]. intros _.
    assert (row ∈ filter P rows) as Hrow by (rewrite Hf; left).
    apply list_elem_of_filter in Hrow as [HP Hrow]. by exists row.
  - intros (row & Hrow & HP).
    assert (row ∈ filter P rows) as Hin by by apply list_elem_of_filter.
    by destruct (filter P rows); [apply elem_of_nil in Hin|].
Qed.

Lemma has_table_iff table_name :
  has_table self connection table_name schema = true <->
  (bound_schema, Py.unicode (denormalize_name self (Some table_name))) ∈ TABLES connection.
Proof.
  unfold has_table. rewrite has_first_selected. split.
  - intros ([s t] & Hrow & Hs & Ht). cbn [fst snd] in Hs, Ht. by subst.
  - intros Hrow. by eexists.
Qed.

Lemma get_table_names_elem name :
  name ∈ get_table_names self connection schema <->
  exists table, (bound_schema, table) ∈ TABLES connection /\
                name = normalize_name self (Some table).
Proof.
  unfold get_table_names. rewrite list_elem_of_fmap. split.
  - intros (table & -> & H). apply list_elem_of_fmap in H as ([s t] & -> & H).
    apply list_elem_of_filter in H as [Hs H]. cbn [fst snd] in *. subst s.
    by exists t.
  - intros (table & Hrow & ->). exists table. split; [done|].
    apply list_elem_of_fmap. exists (bound_schema, table). split; [done|].
    by apply list_elem_of_filter.
Qed.

(** X6: a table that the catalog holds in the looked-up schema under an
    all-upper-case ASCII name is listed by [get_table_names] under its
    normalized name, and [has_table] asked for that listed name answers
    true. *)
Theorem listed_table_is_found (table : string)
    (Hrow : (bound_schema, table) ∈ TABLES connection)
    (Hascii : Py.isascii table = true)
    (Hupper : Py.upper table = table) :
  exists name,
    normalize_name self (Some table) = Some name /\
    Some name ∈ get_table_names self connection schema /\
    has_table self connection name schema = true.
Proof.
  destruct (normalize_name_cases self table) as [Hn|Hn].
  - exists table. split; [done|]. split.
    + apply get_table_names_elem. by exists table.
    + apply has_table_iff. rewrite <- Hn.
      assert (denormalize_name self (normalize_name self (Some table)) = Some table) as ->; [|done].
      apply denormalize_normalize_iff. intros (_ & Hne & _). done.
  - exists (Py.lower table). split; [done|]. split.
    + apply get_table_names_elem. by exists table.
    + apply has_table_iff. rewrite <- Hn.
      assert (denormalize_name self (normalize_name self (Some table)) = Some table) as ->; [|done].
      apply denormalize_normalize_iff. intros (_ & Hne & _). done.
Qed.

(** X7: a table held under an all-lower-case name with a letter in it,
    which as such needs no quoting, is listed by [get_table_names] under
    that very name, yet [has_table] asked for the name looks for its
    upper-cased form and answers false when the schema has no such table. *)
Theorem lower_case_table_is_not_found (table : string)
    (Hrow : (bound_schema, table) ∈ TABLES connection)
    (Hlower : Py.lower table = table)
    (Hletter : Py.upper table <> table)
    (Hquotes : _requires_quotes (identifier_preparer self) table = false)
    (Hother : (bound_schema, Py.upper table) ∉ TABLES connection) :
  Some table ∈ get_table_names self connection schema /\
  has_table self connection table schema = false.
Proof.
  split.
  - apply get_table_names_elem. exists table. split; [done|].
    symmetry. apply normalize_name_keeps. by left.
  - apply not_true_iff_false. rewrite has_table_iff.
    rewrite denormalize_name_uppers by (by rewrite ?Hlower). done.
Qed.

(** X8: the existence checks ignore the case of a name that needs no
    quoting: asking for an all-lower-case name is asking for its
    upper-cased form, for tables and for sequences alike. *)
Theorem existence_checks_ignore_case (name : string)
    (Hlower : Py.lower name = name)
    (Hquotes : _requires_quotes (identifier_preparer self) name = false) :
  has_table self connection name schema =
    has_table self connection (Py.upper name) schema /\
  has_sequence self connection name schema =
    has_sequence self connection (Py.upper name) schema.
Proof.
  unfold has_table, has_sequence.
  rewrite denormalize_name_upper.
  by rewrite denormalize_name_uppers by (by rewrite ?Hlower).
Qed.

(** X9: every name listed by [get_schema_names] and [get_table_names] is
    left unchanged by [normalize_name], and both listings have one name per
    catalog row, in the catalog's order. *)
Theorem listed_names_are_normalized :
  Forall (fun name => normalize_name self name = name)
         (get_schema_names self connection ++ get_table_names self connection schema) /\
  length (get_schema_names self connection) = length (SCHEMAS connection) /\
  length (get_table_names self connection schema) =
    length (filter (fun row => row.1 = bound_schema) (TABLES connection)).
Proof.
  split; [|split].
  - apply Forall_app. unfold get_schema_names, get_table_names.
    split; apply Forall_fmap, Forall_forall; intros x _;
      apply normalize_name_twice.
  - unfold get_schema_names. by rewrite length_map.
  - unfold get_table_names. by rewrite !length_map.
Qed.

End Existence.

(** Witness of X6: the table ORDERS of the sample catalog. *)
Lemma listed_table_is_found_witness :
  exists name,
    normalize_name Toolkit.dialect (Some "ORDERS") = Some name /\
    Some name ∈ get_table_names Toolkit.dialect sample_catalog None /\
    has_table Toolkit.dialect sample_catalog name None = true.
Proof.
  apply (listed_table_is_found Toolkit.dialect sample_catalog None "ORDERS").
  - apply list_elem_of_further, list_elem_of_here.
  - reflexivity.
  - reflexivity.
Defined.

(** Witness of X7: the table [notes] of the sample catalog. *)
Lemma lower_case_table_is_not_found_witness :
  Some "notes" ∈ get_table_names Toolkit.dialect sample_catalog None /\
  has_table Toolkit.dialect sample_catalog "notes" None = false.
Proof.
  apply (lower_case_table_is_not_found Toolkit.dialect sample_catalog None "notes").
  - do 2 apply list_elem_of_further. apply list_elem_of_here.
  - reflexivity.
  - discriminate.
  - reflexivity.
  - intros H. apply list_elem_of_In in H. simpl in H.
    by destruct H as [[=]|[[=]|[[=]|[]]]].
Defined.

(** Witness of X8: the name [orders] in the sample catalog. *)
Lemma existence_checks_ignore_case_witness :
  has_table Toolkit.dialect sample_catalog "orders" None =
    has_table Toolkit.dialect sample_catalog (Py.upper "orders") None /\
  has_sequence Toolkit.dialect sample_catalog "orders" None =
    has_sequence Toolkit.dialect sample_catalog (Py.upper "orders") None.
Proof.
  apply (existence_checks_ignore_case Toolkit.dialect sample_catalog None "orders");
    reflexivity.
Defined.

(** ** Foreign keys, primary keys and columns, row by row *)

Section Rows.

Variable self : HANADialect.
Variable connection : Connection.
Variable table_name : string.
Variable schema : option string.

Local Abbreviation bound_schema :=
  (Py.unicode (denormalize_name self (Py.or_ schema (default_schema_name self)))).
Local Abbreviation bound_table :=
  (Py.unicode (denormalize_name self (Some table_name))).

(** X10: [get_foreign_keys] never groups rows: it returns one entry per
    catalog row, in row order, each without a name, with exactly one
    constrained column and one referred column, both normalized, and with
    the normalized referred table; the entry reports a referred schema
    exactly when a schema was passed or the row's schema is not the default
    schema, and what it reports is the row's own spelling of it. *)
Theorem get_foreign_keys_one_per_row :
  Forall2 (fun (row : referential_constraints_row) foreign_key =>
             ForeignKey.name foreign_key = None /\
             ForeignKey.constrained_columns foreign_key
               = [normalize_name self (Some row.1.1.1)] /\
             ForeignKey.referred_table foreign_key = normalize_name self (Some row.1.2) /\
             ForeignKey.referred_columns foreign_key = [normalize_name self (Some row.2)] /\
             (ForeignKey.referred_schema foreign_key <> None <->
              schema <> None \/ Some row.1.1.2 <> default_schema_name self) /\
             (ForeignKey.referred_schema foreign_key = None \/
              ForeignKey.referred_schema foreign_key = Some row.1.1.2))
          (REFERENTIAL_CONSTRAINTS connection bound_schema bound_table)
          (get_foreign_keys self connection table_name schema).
Proof.
  rewrite get_foreign_keys_rows.
  induction (REFERENTIAL_CONSTRAINTS connection bound_schema bound_table)
    as [|[[[row0 row1] row2] row3] rows IH]; constructor; [|done].
  destruct (get_foreign_keys_row_fields self schema row0 row1 row2 row3)
    as (Hname & Hcols & Htable & Hrefs & Hschema).
  cbn [fst snd]. repeat split; try done.
  - by apply get_foreign_keys_schema_reported.
  - by apply get_foreign_keys_schema_reported.
  - rewrite Hschema. destruct (_ || _); auto.
Qed.

(** X11: [get_pk_constraint] lists the normalized COLUMN_NAME of every row,
    in row order, and names the constraint after the CONSTRAINT_NAME of the
    last row, normalized. *)
Theorem get_pk_constraint_last_name :
  let rows := CONSTRAINTS connection bound_schema bound_table in
  PrimaryKey.constrained_columns (get_pk_constraint self connection table_name schema)
    = map (fun row => normalize_name self (Some row.2)) rows /\
  PrimaryKey.name (get_pk_constraint self connection table_name schema)
    = normalize_name self (fst <$> last rows).
Proof. cbn zeta. by rewrite get_pk_constraint_rows. Qed.

End Rows.

Section ColumnTypes.

Variable types : gmap string sqltype.
Variable hana_types : gmap string sqltype.
Variable self : HANADialect.
Variable connection : Connection.
Variable table_name : string.
Variable schema : option string.

Local Abbreviation column_rows :=
  (TABLE_COLUMNS connection
     (Py.unicode (denormalize_name self (Py.or_ schema (default_schema_name self))))
     (Py.unicode (denormalize_name self (Some table_name)))).

(** Whether a row names a type that neither registry has. *)
Local Abbreviation unknown_type :=
  (fun row : table_columns_row =>
     types !! row.1.1.1.1.2 = None /\ hana_types !! row.1.1.1.1.2 = None).

Lemma get_columns_row_warnings (row : table_columns_row) :
  length (get_columns_row types hana_types self row).2 =
    if decide (unknown_type row) then 1 else 0.
Proof.
  destruct row as [[[[[row0 row1] row2] row3] row4] row5].
  unfold get_columns_row. cbn [fst snd].
  destruct (types !! row1) as [ty|] eqn:Ht.
  - rewrite decide_False; [done|]. by intros [? _].
  - destruct (hana_types !! row1) as [ty|] eqn:Hh.
    + rewrite decide_False; [done|]. by intros [_ ?].
    + by rewrite decide_True.
Qed.

Lemma get_columns_row_name (row : table_columns_row) :
  ColumnInfo.name (get_columns_row types hana_types self row).1
    = normalize_name self (Some row.1.1.1.1.1).
Proof.
  destruct row as [[[[[row0 row1] row2] row3] row4] row5].
  unfold get_columns_row.
  by destruct (types !! row1) as [?|]; [|destruct (hana_types !! row1) as [?|]].
Qed.

Lemma get_columns_row_type (row : table_columns_row) :
  let type_ := ColumnInfo.type_ (get_columns_row types hana_types self row).1 in
  type_ <> DECIMAL_class /\ type_ <> VARCHAR_class.
Proof.
  destruct row as [[[[[row0 row1] row2] row3] row4] row5].
  cbn zeta. unfold get_columns_row.
  destruct (types !! row1) as [ty|]; [|destruct (hana_types !! row1) as [ty|]];
    cbn [fst snd ColumnInfo.type_];
    repeat case_bool_decide; done.
Qed.

(** X12: [get_columns] names its descriptors after the normalized
    COLUMN_NAME of the rows, in row order, and issues exactly as many
    warnings as there are rows whose type name is in neither registry. *)
Theorem get_columns_names_and_warnings :
  map ColumnInfo.name
      (get_columns types hana_types self connection table_name schema).1
    = map (fun row : table_columns_row => normalize_name self (Some row.1.1.1.1.1))
          column_rows /\
  length (get_columns types hana_types self connection table_name schema).2
    = length (filter unknown_type column_rows).
Proof.
  rewrite get_columns_rows. cbn [fst snd]. split.
  - rewrite map_map. apply map_ext. intros row. apply get_columns_row_name.
  - induction column_rows as [|row rows IH]; [done|].
    cbn [flat_map]. rewrite length_app, IH, get_columns_row_warnings.
    destruct (decide (unknown_type row)) as [Hu|Hu].
    + rewrite (filter_cons_True unknown_type) by exact Hu.
      by rewrite decide_True by exact Hu.
    + rewrite (filter_cons_False unknown_type) by exact Hu.
      by rewrite decide_False by exact Hu.
Qed.

(** X13: no descriptor returned by [get_columns] has the bare class
    DECIMAL or VARCHAR as its type: a type found as one of the two classes
    is always replaced by an instance built from the row's length (and
    scale). *)
Theorem get_columns_types_instantiated :
  Forall (fun column =>
            ColumnInfo.type_ column <> DECIMAL_class /\
            ColumnInfo.type_ column <> VARCHAR_class)
         (get_columns types hana_types self connection table_name schema).1.
Proof.
  rewrite get_columns_rows. cbn [fst].
  apply Forall_fmap, Forall_forall. intros row _. apply get_columns_row_type.
Qed.

End ColumnTypes.

(** X14: the generic registry is asked first: for a row whose type name it
    has, the descriptor is the same whatever the HANA registry holds, and
    no warning is issued; a DECIMAL class found there becomes
    DECIMAL(length, scale) and a VARCHAR class VARCHAR(length). *)
Theorem get_columns_generic_registry_first
    (types hana_types hana_types' : gmap string sqltype) (self : HANADialect)
    (row0 row1 : string) (row2 row3 : option string) (row4 row5 : option Z)
    (found : sqltype)
    (Hfound : types !! row1 = Some found) :
  get_columns_row types hana_types self (row0, row1, row2, row3, row4, row5)
    = get_columns_row types hana_types' self (row0, row1, row2, row3, row4, row5) /\
  (get_columns_row types hana_types self (row0, row1, row2, row3, row4, row5)).2 = [] /\
  (found = DECIMAL_class ->
   ColumnInfo.type_ (get_columns_row types hana_types self
                       (row0, row1, row2, row3, row4, row5)).1 = DECIMAL row4 row5) /\
  (found = VARCHAR_class ->
   ColumnInfo.type_ (get_columns_row types hana_types self
                       (row0, row1, row2, row3, row4, row5)).1 = VARCHAR row4).
Proof.
  unfold get_columns_row. rewrite Hfound. cbn [fst snd ColumnInfo.type_].
  repeat split; by intros ->.
Qed.

(** Witness of X14: the column NOTE of the sample table, a VARCHAR. *)
Lemma get_columns_generic_registry_first_witness :
  get_columns_row Sample.types Sample.hana_types Toolkit.dialect
      ("NOTE", "VARCHAR", Some "-", Some "true", Some 20%Z, None)
    = get_columns_row Sample.types ∅ Toolkit.dialect
        ("NOTE", "VARCHAR", Some "-", Some "true", Some 20%Z, None) /\
  (get_columns_row Sample.types Sample.hana_types Toolkit.dialect
     ("NOTE", "VARCHAR", Some "-", Some "true", Some 20%Z, None)).2 = [] /\
  (VARCHAR_class = DECIMAL_class ->
   ColumnInfo.type_ (get_columns_row Sample.types Sample.hana_types Toolkit.dialect
                       ("NOTE", "VARCHAR", Some "-", Some "true", Some 20%Z, None)).1
     = DECIMAL (Some 20%Z) None) /\
  (VARCHAR_class = VARCHAR_class ->
   ColumnInfo.type_ (get_columns_row Sample.types Sample.hana_types Toolkit.dialect
                       ("NOTE", "VARCHAR", Some "-", Some "true", Some 20%Z, None)).1
     = VARCHAR (Some 20%Z)).
Proof.
  apply (get_columns_generic_registry_first Sample.types Sample.hana_types ∅
           Toolkit.dialect "NOTE" "VARCHAR" (Some "-") (Some "true") (Some 20%Z) None
           VARCHAR_class).
  reflexivity.
Defined.

(** ** Index entries as a whole *)

Section IndexEntries.

Variable self : HANADialect.
Variable connection : Connection.
Variable table_name : string.
Variable schema : option string.

Local Abbreviation index_rows :=
  (INDEX_COLUMNS connection
     (Py.unicode (denormalize_name self (Py.or_ schema (default_schema_name self))))
     (Py.unicode (denormalize_name self (Some table_name)))).

Local Abbreviation indexes := (get_indexes self connection table_name schema).

Local Abbreviation kept_rows :=
  (filter (fun row => reserved_prefix row = false) index_rows).

Lemma kept_row_has_entry (row : index_columns_row) :
  row ∈ kept_rows ->
  exists entry, entry ∈ indexes /\ Index.name entry = normalize_name self (Some row.1.1).
Proof.
  intros Hrow.
  assert (row ∈ described_index_rows self (normalize_name self (Some row.1.1)) index_rows)
    as Hin by by apply list_elem_of_filter.
  destruct (described_index_rows self (normalize_name self (Some row.1.1)) index_rows)
    as [|first others] eqn:Hgroup; [by apply elem_of_nil in Hin|].
  eexists {| Index.name := normalize_name self (Some row.1.1) |}.
  split; [|done]. apply get_indexes_elem. cbn [Index.name].
  unfold described_index_entry. by rewrite Hgroup.
Qed.

(** X15: every entry returned by [get_indexes] has a name that is a text
    (never [None]) and at least one column, and the result is empty exactly
    when every row of the catalog result bears the reserved prefix. *)
Theorem get_indexes_entries_well_formed :
  Forall (fun entry =>
            (exists name, Index.name entry = Some name) /\
            Index.column_names entry <> [])
         (get_indexes self connection table_name schema) /\
  (get_indexes self connection table_name schema = [] <->
   filter (fun row => reserved_prefix row = false) index_rows = []).
Proof.
  split.
  - apply Forall_forall. intros entry Hin.
    destruct (get_indexes_first_row _ _ _ _ _ Hin) as (first & others & Hrows & _ & Hcols).
    split; [|by rewrite Hcols].
    assert (first ∈ described_index_rows self (Index.name entry) index_rows) as Hfirst
      by (rewrite Hrows; left).
    apply described_index_rows_elem in Hfirst as [_ <-].
    destruct (normalize_name_cases self first.1.1) as [-> | ->]; by eexists.
  - split.
    + intros Hnil. destruct kept_rows as [|row rest] eqn:Hkept; [done|].
      destruct (kept_row_has_entry row) as (entry & Hin & _); [rewrite Hkept; left|].
      rewrite Hnil in Hin. by apply elem_of_nil in Hin.
    + intros Hkept. destruct indexes as [|entry rest] eqn:Hout; [done|].
      assert (entry ∈ indexes) as Hin by (rewrite Hout; left).
      destruct (get_indexes_first_row _ _ _ _ _ Hin) as (first & others & Hrows & _).
      unfold described_index_rows in Hrows. by rewrite Hkept in Hrows.
Qed.

(** The number of columns held by the dictionary of the loop. *)
Local Abbreviation held m :=
  (total_columns (map_to_list (m : gmap (option string) Index.t)).*2).

Lemma get_indexes_columns_nonempty :
  Forall (fun entry => Index.column_names entry <> []) indexes.
Proof.
  apply Forall_forall. intros entry Hin.
  destruct (get_indexes_first_row _ _ _ _ _ Hin) as (first & others & _ & _ & Hcols).
  by rewrite Hcols.
Qed.

Lemma length_le_total_columns (entries : list Index.t) :
  Forall (fun entry => Index.column_names entry <> []) entries ->
  length entries <= total_columns entries.
Proof.
  induction 1 as [|entry entries Hentry _ IH]; [done|].
  unfold total_columns in *. cbn [length sum_list_with].
  destruct (Index.column_names entry); [done|]. cbn [length]. lia.
Qed.

Lemma held_insert_new (m : gmap (option string) Index.t) k entry :
  m !! k = None ->
  held (<[k := entry]> m) = length (Index.column_names entry) + held m.
Proof.
  intros Hk. unfold total_columns. by rewrite map_to_list_insert.
Qed.

Lemma held_insert_old (m : gmap (option string) Index.t) k old entry :
  m !! k = Some old ->
  held (<[k := entry]> m) + length (Index.column_names old)
  = length (Index.column_names entry) + held m.
Proof.
  intros Hk. unfold total_columns.
  rewrite <- (insert_delete_eq m k entry).
  rewrite map_to_list_insert by apply lookup_delete_eq.
  rewrite <- (map_to_list_delete m k old Hk).
  cbn [fmap list_fmap sum_list_with snd]. lia.
Qed.

Lemma held_row (m : gmap (option string) Index.t) (row : index_columns_row) :
  held (get_indexes_row self m row) =
    held m + (if reserved_prefix row then 0 else 1).
Proof.
  destruct row as [[n c] marker]. unfold get_indexes_row, reserved_prefix.
  cbn [fst snd]. destruct (Py.startswith n "_SYS"); [lia|].
  destruct (m !! normalize_name self (Some n)) as [old|] eqn:Hk.
  - pose proof (held_insert_old m _ old
      {| Index.name := Index.name old; Index.unique := Index.unique old;
         Index.column_names := Index.column_names old ++ [normalize_name self (Some c)] |}
      Hk) as H.
    cbn [Index.column_names] in H. rewrite length_app in H. cbn [length] in H. lia.
  - rewrite held_insert_new by done. cbn [Index.column_names length]. lia.
Qed.

Lemma held_loop (rows : list index_columns_row) (m : gmap (option string) Index.t) :
  held (foldl (get_indexes_row self) m rows) =
    held m + length (filter (fun row => reserved_prefix row = false) rows).
Proof.
  revert m. induction rows as [|row rows IH]; intros m; [cbn; lia|].
  cbn [foldl]. rewrite IH, held_row.
  destruct (reserved_prefix row) eqn:Hp.
  - rewrite (filter_cons_False (fun row => reserved_prefix row = false)); [lia|].
    by rewrite Hp.
  - rewrite (filter_cons_True (fun row => reserved_prefix row = false)) by done.
    cbn [length]. lia.
Qed.

(** X16: [get_indexes] neither loses nor repeats a column: the column
    lists of the returned entries hold, together, exactly as many columns as
    the catalog result has rows without the reserved prefix, and there are
    at most that many entries. *)
Theorem get_indexes_keeps_every_column :
  total_columns (get_indexes self connection table_name schema)
    = length (filter (fun row => reserved_prefix row = false) index_rows) /\
  length (get_indexes self connection table_name schema)
    <= length (filter (fun row => reserved_prefix row = false) index_rows).
Proof.
  assert (Htotal : total_columns indexes = length kept_rows).
  { unfold get_indexes. rewrite held_loop.
    by rewrite map_to_list_empty. }
  split; [done|]. rewrite <- Htotal.
  apply length_le_total_columns, get_indexes_columns_nonempty.
Qed.

End IndexEntries.

(** ** Text emitted for constraints and sequences *)

Lemma string_app_assoc (a b c : string) : (a +:+ b) +:+ c = a +:+ b +:+ c.
Proof.
  induction a as [|x a IH]; [done|].
  change (String x ((a +:+ b) +:+ c) = String x (a +:+ b +:+ c)). by rewrite IH.
Qed.

(** X17: a unique constraint that has columns is always emitted without
    its name, whether or not it has one: the text is the UNIQUE clause over
    the quoted column names followed by the deferrability clause, so it
    begins with UNIQUE and never with CONSTRAINT. *)
Theorem visit_unique_constraint_drops_name (self : DDLCompiler) (constraint : Constraint.t)
    (Hcolumns : Constraint.columns constraint <> []) :
  visit_unique_constraint self constraint =
    "UNIQUE (" +:+
    Py.join ", " (map (fun c => quote (preparer self) (Column.name c))
                      (Constraint.columns constraint)) +:+ ")"
    +:+ define_constraint_deferrability self constraint /\
  Py.startswith (visit_unique_constraint self constraint) "UNIQUE (" = true /\
  Py.startswith (visit_unique_constraint self constraint) "CONSTRAINT" = false.
Proof.
  rewrite visit_unique_constraint_unnamed_text by done.
  rewrite !string_app_assoc. split; [reflexivity|]. split; [|reflexivity].
  apply startswith_spec. by eexists.
Qed.

(** Witness of X17: a constraint named [uq_orders], deferrable, over one
    column. *)
Lemma visit_unique_constraint_drops_name_witness :
  visit_unique_constraint Toolkit.ddl_compiler
    (Constraint.Build_t (Some "uq_orders") [Column.Build_t "a"] (Some true) None)
  = "UNIQUE (a) DEFERRABLE" /\
  Py.startswith
    (visit_unique_constraint Toolkit.ddl_compiler
       (Constraint.Build_t (Some "uq_orders") [Column.Build_t "a"] (Some true) None))
    "UNIQUE (" = true /\
  Py.startswith
    (visit_unique_constraint Toolkit.ddl_compiler
       (Constraint.Build_t (Some "uq_orders") [Column.Build_t "a"] (Some true) None))
    "CONSTRAINT" = false.
Proof.
  apply (visit_unique_constraint_drops_name Toolkit.ddl_compiler
           (Constraint.Build_t (Some "uq_orders") [Column.Build_t "a"] (Some true) None)).
  discriminate.
Defined.

(** X18: the statement run by [fire_sequence] is SELECT followed by the
    text [visit_sequence] compiles for the sequence and by the FROM clause
    of [default_from]. *)
Theorem fire_sequence_statement (Sequence TypeEngine Scalar : Type)
    (format_sequence : Sequence -> string)
    (_execute_scalar : string -> TypeEngine -> Scalar)
    (seq : Sequence) (type_ : TypeEngine) :
  fire_sequence Sequence TypeEngine Scalar format_sequence _execute_scalar seq type_
  = _execute_scalar
      ("SELECT " +:+ visit_sequence Sequence format_sequence seq +:+ default_from)
      type_.
Proof.
  unfold fire_sequence, visit_sequence, default_from. f_equal.
  rewrite string_app_assoc. done.
Qed.

(** ** All the connection arguments *)

Lemma setdefault_lookup {V} (k k' : string) (v : V) (d : gmap string V) :
  Py.setdefault k v d !! k' =
    match d !! k' with
    | Some x => Some x
    | None => if decide (k = k') then Some v else None
    end.
Proof.
  unfold Py.setdefault. destruct (d !! k) as [x|] eqn:Hk.
  - destruct (d !! k') as [x'|] eqn:Hk'; [done|].
    destruct (decide (k = k')) as [->|]; [congruence|done].
  - destruct (decide (k = k')) as [<-|Hne].
    + by rewrite lookup_insert_eq, Hk.
    + rewrite lookup_insert_ne by done. by destruct (d !! k').
Qed.

(** X19: the keyword mapping of [create_connect_args] always has a port,
    has no key besides host, database, user, password and port, and carries
    the host, the database and the password of the URL, each when it is a
    non-empty text, under their own names; the first component of the
    result is the empty tuple. *)
Theorem create_connect_args_keys (self : HANADialect) (url : URL.t) :
  let kwargs := (create_connect_args self url).2 in
  (create_connect_args self url).1 = tt /\
  is_Some (kwargs !! "port") /\
  (forall k, is_Some (kwargs !! k) ->
             k ∈ ["host"; "database"; "user"; "password"; "port"]) /\
  kwargs !! "host" =
    match URL.host url with
    | Some (String c s) => Some (Str (String c s))
    | _ => None
    end /\
  kwargs !! "database" =
    match URL.database url with
    | Some (String c s) => Some (Str (String c s))
    | _ => None
    end /\
  kwargs !! "password" =
    match URL.password url with
    | Some (String c s) => Some (Str (String c s))
    | _ => None
    end.
Proof.
  cbn zeta. unfold create_connect_args. cbn [fst snd].
  split; [done|]. split; [|split; [|split; [|split]]].
  - rewrite setdefault_lookup. destruct (_ !! "port"); [done|].
    by rewrite decide_True.
  - intros k. rewrite setdefault_lookup, (translate_connect_args_user url k).
    destruct (String.eqb_spec k "port") as [->|Hport]; [intros _; set_solver|].
    rewrite (decide_False (P := "port" = k)) by done.
    destruct (String.eqb_spec k "password") as [->|Hpw]; [intros _; set_solver|].
    destruct (String.eqb_spec k "user") as [->|Huser]; [intros _; set_solver|].
    destruct (String.eqb_spec k "database") as [->|Hdb]; [intros _; set_solver|].
    destruct (String.eqb_spec k "host") as [->|Hhost]; [intros _; set_solver|].
    intros [x Hx]. by destruct (URL.port url).
  - rewrite setdefault_lookup, (translate_connect_args_user url "host").
    cbn [String.eqb Ascii.eqb Bool.eqb].
    rewrite (decide_False (P := "port" = "host")) by done.
    by destruct (URL.host url) as [[|? ?]|].
  - rewrite setdefault_lookup, (translate_connect_args_user url "database").
    cbn [String.eqb Ascii.eqb Bool.eqb].
    rewrite (decide_False (P := "port" = "database")) by done.
    by destruct (URL.database url) as [[|? ?]|].
  - rewrite setdefault_lookup, (translate_connect_args_user url "password").
    cbn [String.eqb Ascii.eqb Bool.eqb].
    rewrite (decide_False (P := "port" = "password")) by done.
    by destruct (URL.password url) as [[|? ?]|].
Qed.

(** ** The empty schema name *)

(** X20: a schema given as the empty text counts as no schema when the
    catalog is looked up: columns, indexes, primary key, table names and the
    existence checks are those of the default schema. [get_foreign_keys]
    reads the rows of the default schema as well, but, the schema being
    given, reports the referred schema of every row. *)
Theorem empty_schema_is_default_schema
    (types hana_types : gmap string sqltype) (self : HANADialect)
    (connection : Connection) (catalog : Catalog) (table_name : string) :
  get_columns types hana_types self connection table_name (Some EmptyString)
    = get_columns types hana_types self connection table_name None /\
  get_indexes self connection table_name (Some EmptyString)
    = get_indexes self connection table_name None /\
  get_pk_constraint self connection table_name (Some EmptyString)
    = get_pk_constraint self connection table_name None /\
  get_table_names self catalog (Some EmptyString) = get_table_names self catalog None /\
  has_table self catalog table_name (Some EmptyString)
    = has_table self catalog table_name None /\
  has_sequence self catalog table_name (Some EmptyString)
    = has_sequence self catalog table_name None /\
  map ForeignKey.referred_schema
      (get_foreign_keys self connection table_name (Some EmptyString))
    = map (fun row : referential_constraints_row => Some row.1.1.2)
          (REFERENTIAL_CONSTRAINTS connection
             (Py.unicode (denormalize_name self (default_schema_name self)))
             (Py.unicode (denormalize_name self (Some table_name)))).
Proof.
  repeat (split; [reflexivity|]).
  rewrite get_foreign_keys_rows.
  change (Py.or_ (Some EmptyString) (default_schema_name self))
    with (default_schema_name self).
  rewrite map_map. apply map_ext. by intros [[[row0 row1] row2] row3].
Qed.
